(** * LightBox sample notebooks: batch geocoding and autocomplete

    A shallow embedding of the two notebooks

      - [SampleScripts/BatchGeocodeSearch/batch_search.ipynb]
        ([geocode_address], [read_addresses_from_csv],
         [batch_geocode_addresses] and the driver cells), and
      - [SampleScripts/Autocomplete/autocomplete.ipynb]
        ([autocomplete_address]),

    together with the properties of the batch pipeline.

    Python objects are an inductive type of values, a [dict] is an
    insertion-ordered association list, exceptions are an error result, and
    the effects of the notebook (requests sent, lines printed, files
    written) are threaded through an explicit [world]. *)

From Stdlib Require Import ZArith List String Ascii Bool Lia SpecFloat DecimalString.
Import ListNotations.
Set Warnings "-register-all".
Local Open Scope string_scope.
Local Open Scope Z_scope.

(** ** Python values *)

(** The objects the notebooks handle: what [Response.json()] builds, the
    cells of a [DataFrame], and the values of the result rows.  A Python
    [float] is an IEEE 754 binary64 number, here in the form sign,
    mantissa, binary exponent. *)
Inductive pyval : Type :=
| PNone
| PBool (b : bool)
| PInt (n : Z)
| PFloat (x : spec_float)
| PStr (s : string)
| PList (l : list pyval)
| PDict (d : list (string * pyval)).

(** The exceptions that can leave the notebook's functions. *)
Inductive exn : Type :=
| KeyError (key : pyval)
| IndexError
| TypeError
| ValueError
| JSONDecodeError
| RequestException
| FileNotFoundError (path : string)
| EmptyDataError
| AttributeError.

Inductive outcome (A : Type) : Type :=
| Ok (a : A)
| Raise (e : exn).
Arguments Ok {A} a.
Arguments Raise {A} e.

(** [bool(v)]: Python's truth value. *)
Definition truthy (v : pyval) : bool :=
  match v with
  | PNone => false
  | PBool b => b
  | PInt n => negb (n =? 0)
  | PFloat x => negb (SFeqb x (S754_zero false))
  | PStr s => negb (String.eqb s "")
  | PList l => match l with [] => false | _ :: _ => true end
  | PDict d => match d with [] => false | _ :: _ => true end
  end.

(** Lookup of a key in a [dict]. *)
Fixpoint dict_lookup (d : list (string * pyval)) (k : string) : option pyval :=
  match d with
  | [] => None
  | (k', v) :: d' => if String.eqb k k' then Some v else dict_lookup d' k
  end.

(** [v[k]] for a string key [k]. *)
Definition getitem (v : pyval) (k : string) : outcome pyval :=
  match v with
  | PDict d =>
      match dict_lookup d k with
      | Some x => Ok x
      | None => Raise (KeyError (PStr k))
      end
  | _ => Raise TypeError
  end.

(** [v[0]].  A [dict] built from JSON has string keys only, so the key [0]
    is never in it. *)
Definition getitem0 (v : pyval) : outcome pyval :=
  match v with
  | PList l => match l with x :: _ => Ok x | [] => Raise IndexError end
  | PStr s =>
      match s with
      | String c _ => Ok (PStr (String c EmptyString))
      | EmptyString => Raise IndexError
      end
  | PDict _ => Raise (KeyError (PInt 0))
  | _ => Raise TypeError
  end.

(** The one-character strings of a string, in order. *)
Fixpoint characters (s : string) : list pyval :=
  match s with
  | EmptyString => []
  | String c s' => PStr (String c EmptyString) :: characters s'
  end.

(** The values [for x in v] goes through: the elements of a list, the keys
    of a [dict], the characters of a string; other values are not
    iterable. *)
Definition py_iter (v : pyval) : outcome (list pyval) :=
  match v with
  | PList l => Ok l
  | PDict d => Ok (map (fun kv => PStr (fst kv)) d)
  | PStr s => Ok (characters s)
  | _ => Raise TypeError
  end.

(** [str(n)] for an [int]. *)
Definition str_of_int (n : Z) : string :=
  NilEmpty.string_of_int (Z.to_int n).

(** Chained subscripts [v[k1][k2]...[kn]], evaluated left to right. *)
Fixpoint subscript (v : pyval) (keys : list string) : outcome pyval :=
  match keys with
  | [] => Ok v
  | k :: keys' =>
      match getitem v k with
      | Ok x => subscript x keys'
      | Raise e => Raise e
      end
  end.

(** ** [range] and slices *)

(** [len(range(start, stop, step))] for a non-zero step. *)
Definition range_len (start stop step : Z) : Z :=
  if 0 <? step then
    if start <? stop then (stop - start - 1) / step + 1 else 0
  else
    if stop <? start then (start - stop - 1) / (- step) + 1 else 0.

(** [list(range(start, stop, step))]; a zero step is a [ValueError]. *)
Definition py_range (start stop step : Z) : outcome (list Z) :=
  if step =? 0 then Raise ValueError
  else Ok (map (fun k => start + Z.of_nat k * step)
               (seq 0 (Z.to_nat (range_len start stop step)))).

(** A slice bound brought into [0 .. len]: negative bounds count from the
    end, and everything is clamped. *)
Definition clamp_index (len i : Z) : Z :=
  if i <? 0 then Z.max (i + len) 0 else Z.min i len.

(** [l[i:j]]. *)
Definition py_slice {A : Type} (l : list A) (i j : Z) : list A :=
  let len := Z.of_nat (List.length l) in
  let lo := clamp_index len i in
  let hi := clamp_index len j in
  firstn (Z.to_nat (hi - lo)) (skipn (Z.to_nat lo) l).

(** ** The outside world *)

(** An HTTP request as [requests.get(url, params=..., headers=...)] sends
    it. *)
Record request : Type := mkRequest {
  method : string;
  url : string;
  params : list (string * string);
  headers : list (string * string)
}.

(** A [requests.Response]: the status code and what [.json()] gives, which
    is the parsed body or a decoding error. *)
Record Response : Type := mkResponse {
  status_code : Z;
  json : outcome pyval
}.

(** A result row: the [dict] appended to [all_results]. *)
Definition row : Type := list (string * pyval).

(** A [pandas.DataFrame] without its index: column labels and rows of
    cells. *)
Record DataFrame : Type := mkDataFrame {
  columns : list string;
  data : list (list pyval)
}.

(** A delimited file, seen as the table it holds: the header line and one
    record per line. *)
Record csv_file : Type := mkCsv {
  header : list string;
  records : list (list pyval)
}.

(** What the notebook can change: the requests sent so far, the lines
    printed, and the files on disk (the most recent binding of a path
    first). *)
Record world : Type := mkWorld {
  sent : list request;
  stdout : list string;
  files : list (string * csv_file)
}.

(** A computation reads and changes the world and returns or raises; what
    it did to the world before raising stays done. *)
Definition M (A : Type) : Type := world -> outcome A * world.

Definition ret {A : Type} (a : A) : M A := fun w => (Ok a, w).

Definition bind {A B : Type} (m : M A) (k : A -> M B) : M B :=
  fun w =>
    match m w with
    | (Ok a, w') => k a w'
    | (Raise e, w') => (Raise e, w')
    end.

Definition lift {A : Type} (o : outcome A) : M A := fun w => (o, w).

Notation "x <- m ;; k" := (bind m (fun x => k))
  (at level 61, m at next level, right associativity).
Notation "m ;;; k" := (bind m (fun _ => k))
  (at level 61, right associativity).

(** [for x in xs: body], with the variables the body assigns threaded as
    [s]. *)
Fixpoint for_each {A S : Type} (xs : list A) (body : A -> S -> M S) (s : S) : M S :=
  match xs with
  | [] => ret s
  | x :: xs' => s' <- body x s ;; for_each xs' body s'
  end.

(** [print(line)]. *)
Definition print (line : string) : M unit :=
  fun w => (Ok tt, mkWorld (sent w) (stdout w ++ [line]) (files w)).

(** Sequencing of pure steps that can raise. *)
Definition and_then {A B : Type} (o : outcome A) (k : A -> outcome B) : outcome B :=
  match o with
  | Ok a => k a
  | Raise e => Raise e
  end.

Notation "x <~ o ;; k" := (and_then o (fun x => k))
  (at level 61, o at next level, right associativity).

(** ** pandas *)

(** The files hold tables as [pd.read_csv] types them: a numeric column
    has numbers (a column with a blank has floats, the blank being [NaN]),
    any other column has strings, with [NaN] for blanks and for the markers
    of missing values. *)
Fixpoint find_file (fs : list (string * csv_file)) (path : string) : option csv_file :=
  match fs with
  | [] => None
  | (p, f) :: fs' => if String.eqb path p then Some f else find_file fs' path
  end.

(** [pd.read_csv(path)]: the table of the file; an error when there is no
    such file, and when the file has no column and no record to parse. *)
Definition read_csv (path : string) : M DataFrame :=
  fun w =>
    match find_file (files w) path with
    | Some f =>
        match header f, records f with
        | [], [] => (Raise EmptyDataError, w)
        | _, _ => (Ok (mkDataFrame (header f) (records f)), w)
        end
    | None => (Raise (FileNotFoundError path), w)
    end.

(** [df.to_csv(path, index=False)]: a header line with the column labels,
    then one record per row. *)
Definition to_csv (df : DataFrame) (path : string) : M unit :=
  fun w =>
    (Ok tt, mkWorld (sent w) (stdout w)
                    ((path, mkCsv (columns df) (data df)) :: files w)).

(** [row[label]] on a row of a frame (a [Series] labelled by the columns). *)
Fixpoint series_get (labels : list string) (cells : list pyval) (label : string)
  : outcome pyval :=
  match labels, cells with
  | l :: labels', c :: cells' =>
      if String.eqb label l then Ok c else series_get labels' cells' label
  | _, _ => Raise (KeyError (PStr label))
  end.

(** [f] on each row in turn, first error wins. *)
Fixpoint each_row {B : Type} (f : (string -> outcome pyval) -> outcome B)
  (labels : list string) (rows : list (list pyval)) : outcome (list B) :=
  match rows with
  | [] => Ok []
  | r :: rows' =>
      b <~ f (series_get labels r) ;;
      bs <~ each_row f labels rows' ;;
      Ok (b :: bs)
  end.

(** An [int64] as a [float64], rounded to nearest even. *)
Definition float_of_int (n : Z) : spec_float :=
  binary_normalize 53 1024 n 0 false.

Definition is_int (v : pyval) : bool :=
  match v with PInt _ => true | _ => false end.

Definition is_float (v : pyval) : bool :=
  match v with PFloat _ => true | _ => false end.

Definition as_float (v : pyval) : pyval :=
  match v with PInt n => PFloat (float_of_int n) | _ => v end.

(** The rows of a frame as [df.apply(..., axis=1)] hands them over: rows
    of the frame's array of values, which has one type for all columns.
    When the columns are all numeric, some of integers and some of floats,
    that type is [float64] and the integers become floats; in all other
    cases met here (one numeric type alone, booleans alone, or a column of
    strings among them) the cells are as they are in the frame.  The
    columns of a frame are homogeneous, so the cells tell the types. *)
Definition frame_values (rows : list (list pyval)) : list (list pyval) :=
  let cells := List.concat rows in
  if forallb (fun v => is_int v || is_float v) cells
     && existsb is_int cells && existsb is_float cells
  then map (map as_float) rows
  else rows.

(** [df.apply(f, axis=1).tolist()], for an [f] that does not return a
    [Series].  On a frame with rows, [f] goes over the rows of values.  On
    a frame without rows pandas tries [f] on a row of [NaN]: if that
    returns, the result is the empty list; if that raises, the result of
    [apply] is a copy of the frame, which has no [tolist]. *)
Definition apply_rows {B : Type} (f : (string -> outcome pyval) -> outcome B)
  (labels : list string) (rows : list (list pyval)) : outcome (list B) :=
  match rows with
  | [] =>
      match f (series_get labels (map (fun _ => PFloat S754_nan) labels)) with
      | Ok _ => Ok []
      | Raise _ => Raise AttributeError
      end
  | _ :: _ => each_row f labels (frame_values rows)
  end.

(** [pd.DataFrame(records)] on a list of dicts: the columns are the keys in
    order of first appearance, a key a record lacks gives [NaN].  The cells
    are the values of the records; the conversion pandas then makes inside
    a column of numbers (integers beside floats, [None] beside numbers) is
    not part of it: what is proved of a frame is its labels, its number of
    rows and its [address] column, a column of strings. *)
Fixpoint add_keys (cols : list string) (r : row) : list string :=
  match r with
  | [] => cols
  | (k, _) :: r' =>
      add_keys (if existsb (String.eqb k) cols then cols else cols ++ [k]) r'
  end.

Definition frame_columns (rs : list row) : list string :=
  fold_left add_keys rs [].

Definition frame_cell (r : row) (label : string) : pyval :=
  match dict_lookup r label with
  | Some v => v
  | None => PFloat S754_nan
  end.

Definition pd_DataFrame (rs : list row) : DataFrame :=
  let cols := frame_columns rs in
  mkDataFrame cols (map (fun r => map (frame_cell r) cols) rs).

(** ** The notebooks *)

Section Notebooks.

(** The remote service and the transport: what [requests.get] gives for a
    request, given the requests already sent; a response, or a transport
    failure. *)
Variable network : list request -> request -> outcome Response.

(** The text of a value inside an f-string, for the values other than
    [str], [int], [bool] and [None] (floats and containers). *)
Variable repr_other : pyval -> string.

(** [f"{v}"]. *)
Definition format_value (v : pyval) : string :=
  match v with
  | PStr s => s
  | PInt n => str_of_int n
  | PBool true => "True"
  | PBool false => "False"
  | PNone => "None"
  | _ => repr_other v
  end.

(** [requests.get(url, params=params, headers=headers)]. *)
Definition requests_get (url : string) (params headers : list (string * string))
  : M Response :=
  fun w =>
    let rq := mkRequest "GET" url params headers in
    (network (sent w) rq, mkWorld (sent w ++ [rq]) (stdout w) (files w)).

(** batch_search.ipynb, [geocode_address]. *)
Definition geocode_address (lightbox_api_key address : string) : M Response :=
  let BASE_URL := "https://api.lightboxre.com/v1" in
  let ENDPOINT := "/addresses/search" in
  let URL := BASE_URL ++ ENDPOINT in
  let params := [("text", address)] in
  let headers := [("x-api-key", lightbox_api_key)] in
  response <- requests_get URL params headers ;;
  ret response.

(** autocomplete.ipynb, [autocomplete_address]. *)
Definition autocomplete_address (lightbox_api_key address country_code : string)
  : M Response :=
  let BASE_URL := "https://api.lightboxre.com/v1" in
  let ENDPOINT := "/addresses/_autocomplete" in
  let URL := BASE_URL ++ ENDPOINT in
  let params := [("text", address); ("countryCode", country_code)] in
  let headers := [("x-api-key", lightbox_api_key)] in
  response <- requests_get URL params headers ;;
  ret response.

(** autocomplete.ipynb, the first two request cells (the same code, with
    ['5201 C'] and ['5201 California A'] for [address] and ['US'] for
    [country_code]): the status line, then the label of each candidate.
    [print] writes [str(v)], which is the f-string text of [v]. *)
Definition autocomplete_cell (lightbox_api_key address country_code : string)
  : M unit :=
  address_search_data <- autocomplete_address lightbox_api_key address country_code ;;
  print ("status_code: " ++ str_of_int (status_code address_search_data)) ;;;
  data <- lift (json address_search_data) ;;
  found <- lift (getitem data "addresses") ;;
  candidates <- lift (py_iter found) ;;
  for_each candidates
    (fun address _ =>
       label <- lift (getitem address "label") ;;
       print (format_value label))
    tt.

(** The lambda of [read_addresses_from_csv]:
    [f"{row['Address']}, {row['City']} {row['State']} {row['Zip Code']}"]. *)
Definition format_address (row : string -> outcome pyval) : outcome string :=
  street <~ row "Address" ;;
  city <~ row "City" ;;
  state <~ row "State" ;;
  zip <~ row "Zip Code" ;;
  Ok (format_value street ++ ", " ++ format_value city ++ " "
        ++ format_value state ++ " " ++ format_value zip).

(** batch_search.ipynb, [read_addresses_from_csv]. *)
Definition read_addresses_from_csv (file_path : string) : M (list string) :=
  df <- read_csv file_path ;;
  formatted_addresses <- lift (apply_rows format_address (columns df) (data df)) ;;
  ret formatted_addresses.

(** The body of the inner loop of [batch_geocode_addresses]: one address,
    one request, one row appended to [all_results]. *)
Definition geocode_one (api_key address : string) (all_results : list row)
  : M (list row) :=
  result <- geocode_address api_key address ;;
  if status_code result =? 200 then
    data <- lift (json result) ;;
    found <- lift (getitem data "addresses") ;;
    if truthy found then
      first_match <- lift (getitem0 found) ;;
      latitude <- lift (subscript first_match
                          ["location"; "representativePoint"; "latitude"]) ;;
      longitude <- lift (subscript first_match
                           ["location"; "representativePoint"; "longitude"]) ;;
      confidence_score <- lift (subscript first_match
                                  ["$metadata"; "geocode"; "confidence"; "score"]) ;;
      precision_code <- lift (subscript first_match
                                ["$metadata"; "geocode"; "precisionCode"]) ;;
      ret (all_results ++
             [[("address", PStr address);
               ("latitude", latitude);
               ("longitude", longitude);
               ("confidence_score", confidence_score);
               ("precision_code", precision_code)]])%list
    else
      ret (all_results ++
             [[("address", PStr address);
               ("latitude", PStr "No match");
               ("longitude", PStr "No match");
               ("confidence_score", PStr "No match");
               ("precision_code", PStr "No match")]])%list
  else
    let all_results' :=
      (all_results ++
         [[("address", PStr address);
           ("latitude", PStr "Failed");
           ("longitude", PStr ("Status Code: " ++ str_of_int (status_code result)));
           ("confidence_score", PStr "Failed");
           ("precision_code", PStr "Failed")]])%list in
    print ("Failed to geocode address '" ++ address ++ "', Status Code: "
             ++ str_of_int (status_code result)) ;;;
    ret all_results'.

(** batch_search.ipynb, [batch_geocode_addresses]. *)
Definition batch_geocode_addresses (api_key : string) (addresses : list string)
  (batch_size : Z) : M DataFrame :=
  starts <- lift (py_range 0 (Z.of_nat (List.length addresses)) batch_size) ;;
  let batched_addresses :=
    map (fun i => py_slice addresses i (i + batch_size)) starts in
  let all_results := [] in
  all_results <-
    for_each batched_addresses
      (fun batch all_results =>
         for_each batch (fun address all_results =>
                           geocode_one api_key address all_results)
                  all_results)
      all_results ;;
  ret (pd_DataFrame all_results).

(** The default of the [batch_size] argument. *)
Definition default_batch_size : Z := 200.

(** The driver cells 4 to 6 of batch_search.ipynb, run in order. *)
Definition run_notebook (lightbox_api_key input_file_path output_file_path : string)
  : M unit :=
  print "Reading addresses from CSV file..." ;;;
  addresses <- read_addresses_from_csv input_file_path ;;
  print "Starting batch geocoding..." ;;;
  geocoded_data <- batch_geocode_addresses lightbox_api_key addresses default_batch_size ;;
  print "Batch geocoding completed." ;;;
  to_csv geocoded_data output_file_path ;;;
  print ("Geocoded data saved to '" ++ output_file_path ++ "'.").

End Notebooks.

(** ** Vocabulary of the properties *)

(** The request [geocode_address] sends for an address. *)
Definition search_request (api_key address : string) : request :=
  mkRequest "GET" "https://api.lightboxre.com/v1/addresses/search"
            [("text", address)] [("x-api-key", api_key)].

(** The request [autocomplete_address] sends. *)
Definition autocomplete_request (api_key address country_code : string) : request :=
  mkRequest "GET" "https://api.lightboxre.com/v1/addresses/_autocomplete"
            [("text", address); ("countryCode", country_code)]
            [("x-api-key", api_key)].

(** The world once one more request has gone out. *)
Definition after_request (w : world) (rq : request) : world :=
  mkWorld (sent w ++ [rq]) (stdout w) (files w).

(** The world once one more line has been printed. *)
Definition after_print (w : world) (line : string) : world :=
  mkWorld (sent w) (stdout w ++ [line]) (files w).

(** The column labels of a result row, in order. *)
Definition result_columns : list string :=
  ["address"; "latitude"; "longitude"; "confidence_score"; "precision_code"].

(** The diagnostic line of the failure branch. *)
Definition diagnostic (address : string) (status : Z) : string :=
  "Failed to geocode address '" ++ address ++ "', Status Code: " ++ str_of_int status.

(** The cells of a frame under one column label. *)
Definition column_values (df : DataFrame) (label : string) : list (outcome pyval) :=
  map (fun cells => series_get (columns df) cells label) (data df).

(** Whether the keys [keys] can be followed from [v] through nested JSON
    objects. *)
Fixpoint has_path (v : pyval) (keys : list string) : bool :=
  match keys with
  | [] => true
  | k :: keys' =>
      match v with
      | PDict d =>
          match dict_lookup d k with
          | Some x => has_path x keys'
          | None => false
          end
      | _ => false
      end
  end.

(** The four fields the driver reads from a match. *)
Definition expected_paths : list (list string) :=
  [["location"; "representativePoint"; "latitude"];
   ["location"; "representativePoint"; "longitude"];
   ["$metadata"; "geocode"; "confidence"; "score"];
   ["$metadata"; "geocode"; "precisionCode"]].

Definition complete_match (m : pyval) : bool :=
  forallb (has_path m) expected_paths.

(** A response the driver can turn into a row: any non-200 response, or a
    200 response whose body is a JSON object with an [addresses] array that
    is empty or starts with a match holding the four fields. *)
Definition well_formed (r : Response) : bool :=
  if status_code r =? 200 then
    match json r with
    | Ok (PDict d) =>
        match dict_lookup d "addresses" with
        | Some (PList []) => true
        | Some (PList (m :: _)) => complete_match m
        | _ => false
        end
    | _ => false
    end
  else true.

(** A parsed body that lacks an expected field: a JSON object with no
    [addresses] key, or one whose first match misses one of the four
    fields. *)
Definition lacks_expected_field (body : pyval) : bool :=
  match body with
  | PDict d =>
      match dict_lookup d "addresses" with
      | None => true
      | Some (PList (m :: _)) => negb (complete_match m)
      | Some _ => false
      end
  | _ => false
  end.

(** The failure row as the specification words it: status text under
    [confidence_score], ["Failed"] under the three other fields. *)
Definition failed_row_as_specified (status : Z) (r : row) : Prop :=
  dict_lookup r "latitude" = Some (PStr "Failed")
  /\ dict_lookup r "longitude" = Some (PStr "Failed")
  /\ dict_lookup r "confidence_score" = Some (PStr ("Status Code: " ++ str_of_int status))
  /\ dict_lookup r "precision_code" = Some (PStr "Failed").

(** The driver without batches, written from the specification's words:
    an iteration over the whole list, one address at a time, and the frame
    of the rows. *)
Definition geocode_each (network : list request -> request -> outcome Response)
  (api_key : string) (addresses : list string) : M DataFrame :=
  all_results <- for_each addresses (geocode_one network api_key) [] ;;
  ret (pd_DataFrame all_results).

(** A row that belongs to an address: the five labels in order and the
    address under [address]. *)
Definition row_for (address : string) (r : row) : Prop :=
  map fst r = result_columns /\ dict_lookup r "address" = Some (PStr address).

(** An input row as the formatter sees it: the cells under the four
    labels it reads. *)
Record AddressRecord : Type := mkAddressRecord {
  street : pyval;
  city : pyval;
  state : pyval;
  zipCode : pyval
}.

(** A row of a frame holds a record when its cells under [Address],
    [City], [State] and [Zip Code] are the four fields. *)
Definition row_holds (labels : list string) (cells : list pyval) (rec : AddressRecord)
  : Prop :=
  series_get labels cells "Address" = Ok (street rec)
  /\ series_get labels cells "City" = Ok (city rec)
  /\ series_get labels cells "State" = Ok (state rec)
  /\ series_get labels cells "Zip Code" = Ok (zipCode rec).

(** The formatted address of a record: ["{street}, {city} {state} {zipCode}"]. *)
Definition FormattedAddress (repr_other : pyval -> string) (rec : AddressRecord)
  : string :=
  format_value repr_other (street rec) ++ ", " ++ format_value repr_other (city rec)
    ++ " " ++ format_value repr_other (state rec)
    ++ " " ++ format_value repr_other (zipCode rec).

(** A service whose answer depends on the request alone. *)
Definition fixed_service (server : request -> outcome Response)
  : list request -> request -> outcome Response :=
  fun _ rq => server rq.

(** The lines the loop body prints for an address, given what the request
    gave: the diagnostic for a status other than 200, nothing otherwise. *)
Definition lines_for (address : string) (answer : outcome Response) : list string :=
  match answer with
  | Ok r => if status_code r =? 200 then [] else [diagnostic address (status_code r)]
  | Raise _ => []
  end.

(** The column labels the formatter reads. *)
Definition required_columns : list string :=
  ["Address"; "City"; "State"; "Zip Code"].

(** The status line of the autocomplete cell. *)
Definition status_line (status : Z) : string :=
  "status_code: " ++ str_of_int status.

(** ** Sample data *)

Definition point (lat lon : spec_float) : pyval :=
  PDict [("representativePoint",
          PDict [("longitude", PFloat lon); ("latitude", PFloat lat)])].

Definition geocode_metadata (score : Z) (precision : string) : pyval :=
  PDict [("geocode",
          PDict [("confidence", PDict [("score", PInt score)]);
                 ("precisionCode", PStr precision)])].

Definition candidate (label : string) (lat lon : spec_float) (score : Z)
  (precision : string) : pyval :=
  PDict [("label", PStr label);
         ("location", point lat lon);
         ("$metadata", geocode_metadata score precision)].

(** 40.5, -75.125, 38.5 and -121.25 as binary64 numbers. *)
Definition lat_philadelphia : spec_float := S754_finite false 81 (-1).
Definition lon_philadelphia : spec_float := S754_finite true 601 (-3).
Definition lat_sacramento : spec_float := S754_finite false 77 (-1).
Definition lon_sacramento : spec_float := S754_finite true 485 (-2).

Definition two_candidates : Response :=
  mkResponse 200
    (Ok (PDict [("addresses",
                 PList [candidate "5201 C ST, PHILADELPHIA, PA 19120-3608, US"
                                  lat_philadelphia lon_philadelphia 98 "rooftop";
                        candidate "5201 C ST, SACRAMENTO, CA 95819-2323, US"
                                  lat_sacramento lon_sacramento 41 "street"])])).

Definition no_candidates : Response :=
  mkResponse 200 (Ok (PDict [("addresses", PList [])])).

Definition not_found : Response :=
  mkResponse 404
    (Ok (PDict [("error", PDict [("code", PStr "404"); ("message", PStr "Not Found")])])).

Definition no_addresses_key : Response :=
  mkResponse 200 (Ok (PDict [("results", PList [])])).

(** The text a request asks for. *)
Definition text_of (rq : request) : string :=
  match params rq with
  | (_, t) :: _ => t
  | [] => ""
  end.

(** A service that answers by the address text alone. *)
Definition sample_network (history : list request) (rq : request) : outcome Response :=
  if String.eqb (text_of rq) "5201 C ST, PHILADELPHIA PA 19120-3608" then Ok two_candidates
  else if String.eqb (text_of rq) "1 NOWHERE RD, ATLANTIS XX 00000" then Ok no_candidates
  else if String.eqb (text_of rq) "9 BROKEN LN, NOWHERE ZZ 99999" then Ok no_addresses_key
  else Ok not_found.

Definition empty_world : world := mkWorld [] [] [].

(** An input file of three rows; the second has stray blanks and a zip
    code with a leading zero. *)
Definition sample_input : csv_file :=
  mkCsv ["Address"; "City"; "State"; "Zip Code"]
        [[PStr "5201 C ST"; PStr "PHILADELPHIA"; PStr "PA"; PStr "19120-3608"];
         [PStr " 12 Main St "; PStr "Boston"; PStr "MA"; PStr "02134"];
         [PStr "9 BROKEN LN"; PStr "NOWHERE"; PStr "ZZ"; PStr "99999"]].

Definition sample_world : world := mkWorld [] [] [("input.csv", sample_input)].

Definition sample_repr (v : pyval) : string := "nan".

(** Autocomplete answers: two labelled candidates; a candidate without a
    label after a labelled one; the 404 body. *)
Definition two_labels : Response :=
  mkResponse 200
    (Ok (PDict [("addresses",
                 PList [PDict [("label", PStr "5201 AVENUE C, CORPUS CHRISTI, TX 78410-4720, US")];
                        PDict [("label", PStr "5201 C ST, PHILADELPHIA, PA 19120-3608, US")]])])).

Definition unlabelled_second : Response :=
  mkResponse 200
    (Ok (PDict [("addresses",
                 PList [PDict [("label", PStr "5201 AVENUE C, CORPUS CHRISTI, TX 78410-4720, US")];
                        PDict [("id", PStr "0001")];
                        PDict [("label", PStr "5201 C ST, PHILADELPHIA, PA 19120-3608, US")]])])).

Definition autocomplete_network (history : list request) (rq : request)
  : outcome Response :=
  if String.eqb (text_of rq) "5201 C" then Ok two_labels
  else if String.eqb (text_of rq) "5201 X" then Ok unlabelled_second
  else Ok not_found.

(** A service that is down for one address, and one that answers it with a
    page that is not JSON. *)
Definition flaky_network (history : list request) (rq : request) : outcome Response :=
  if String.eqb (text_of rq) "5401" then Raise RequestException
  else sample_network history rq.

Definition not_json : Response := mkResponse 200 (Raise JSONDecodeError).

Definition html_network (history : list request) (rq : request) : outcome Response :=
  if String.eqb (text_of rq) "5401" then Ok not_json
  else sample_network history rq.

(** 200 answers whose [addresses] is [null], and a non-empty string. *)
Definition null_addresses : Response :=
  mkResponse 200 (Ok (PDict [("addresses", PNone)])).

Definition string_addresses : Response :=
  mkResponse 200 (Ok (PDict [("addresses", PStr "none")])).

Definition odd_network (history : list request) (rq : request) : outcome Response :=
  if String.eqb (text_of rq) "NULL" then Ok null_addresses
  else if String.eqb (text_of rq) "TEXT" then Ok string_addresses
  else sample_network history rq.

(** The sample input without its third row. *)
Definition good_input : csv_file :=
  mkCsv ["Address"; "City"; "State"; "Zip Code"]
        [[PStr "5201 C ST"; PStr "PHILADELPHIA"; PStr "PA"; PStr "19120-3608"];
         [PStr " 12 Main St "; PStr "Boston"; PStr "MA"; PStr "02134"]].

Definition good_world : world := mkWorld [] [] [("input.csv", good_input)].

(** An input file without a [City] column. *)
Definition no_city_input : csv_file :=
  mkCsv ["Address"; "State"; "Zip Code"]
        [[PStr "5201 C ST"; PStr "PA"; PStr "19120-3608"]].

Definition no_city_world : world := mkWorld [] [] [("input.csv", no_city_input)].

(** The same table with its header line alone. *)
Definition header_only_input : csv_file :=
  mkCsv ["Address"; "State"; "Zip Code"] [].

Definition header_only_world : world := mkWorld [] [] [("input.csv", header_only_input)].

(** * Properties *)

(** ** The Python primitives on small inputs *)

Example str_of_int_404 : str_of_int 404 = "404".
Proof. reflexivity. Qed.

Example truthy_float :
  truthy (PFloat (S754_finite false 79 (-1))) = true
  /\ truthy (PFloat (S754_zero true)) = false
  /\ truthy (PFloat S754_nan) = true.
Proof. repeat split. Qed.

Example py_range_ex : py_range 0 5 2 = Ok [0; 2; 4].
Proof. reflexivity. Qed.

Example py_range_neg : py_range 0 5 (-2) = Ok [].
Proof. reflexivity. Qed.

Example py_slice_ex : py_slice [1; 2; 3; 4; 5] 4 6 = [5] /\ py_slice [1; 2; 3; 4; 5] (-2) 9 = [4; 5].
Proof. split; reflexivity. Qed.

(** ** The geocode client *)

Section Client.

Variable network : list request -> request -> outcome Response.

Lemma geocode_address_run (api_key address : string) (w : world) :
  geocode_address network api_key address w
  = (network (sent w) (search_request api_key address),
     after_request w (search_request api_key address)).
Proof.
  unfold geocode_address, bind, requests_get, ret; cbn.
  fold (search_request api_key address).
  destruct (network (sent w) (search_request api_key address)); reflexivity.
Qed.

Lemma autocomplete_address_run (api_key address country_code : string) (w : world) :
  autocomplete_address network api_key address country_code w
  = (network (sent w) (autocomplete_request api_key address country_code),
     after_request w (autocomplete_request api_key address country_code)).
Proof.
  unfold autocomplete_address, bind, requests_get, ret; cbn.
  fold (autocomplete_request api_key address country_code).
  destruct (network (sent w) (autocomplete_request api_key address country_code));
    reflexivity.
Qed.

(** Unfolding of the loop body once the response is known. *)
Lemma geocode_one_response (api_key address : string) (rows : list row)
  (w : world) (r : Response) :
  network (sent w) (search_request api_key address) = Ok r ->
  geocode_one network api_key address rows w
  = (if status_code r =? 200 then
       data <- lift (json r) ;;
       found <- lift (getitem data "addresses") ;;
       if truthy found then
         first_match <- lift (getitem0 found) ;;
         latitude <- lift (subscript first_match
                             ["location"; "representativePoint"; "latitude"]) ;;
         longitude <- lift (subscript first_match
                              ["location"; "representativePoint"; "longitude"]) ;;
         confidence_score <- lift (subscript first_match
                                     ["$metadata"; "geocode"; "confidence"; "score"]) ;;
         precision_code <- lift (subscript first_match
                                   ["$metadata"; "geocode"; "precisionCode"]) ;;
         ret (rows ++
                [[("address", PStr address);
                  ("latitude", latitude);
                  ("longitude", longitude);
                  ("confidence_score", confidence_score);
                  ("precision_code", precision_code)]])%list
       else
         ret (rows ++
                [[("address", PStr address);
                  ("latitude", PStr "No match");
                  ("longitude", PStr "No match");
                  ("confidence_score", PStr "No match");
                  ("precision_code", PStr "No match")]])%list
     else
       print (diagnostic address (status_code r)) ;;;
       ret (rows ++
              [[("address", PStr address);
                ("latitude", PStr "Failed");
                ("longitude", PStr ("Status Code: " ++ str_of_int (status_code r)));
                ("confidence_score", PStr "Failed");
                ("precision_code", PStr "Failed")]])%list)
      (after_request w (search_request api_key address)).
Proof.
  intros Hr. unfold geocode_one. unfold bind at 1.
  rewrite geocode_address_run, Hr. reflexivity.
Qed.

(** A transport failure leaves the loop body at once. *)
Lemma geocode_one_transport_failure (api_key address : string) (rows : list row)
  (w : world) (e : exn) :
  network (sent w) (search_request api_key address) = Raise e ->
  geocode_one network api_key address rows w
  = (Raise e, after_request w (search_request api_key address)).
Proof.
  intros Hr. unfold geocode_one. unfold bind at 1.
  rewrite geocode_address_run, Hr. reflexivity.
Qed.

End Client.

(** C8.  Each call of the geocode client sends exactly one GET request to
    the base URL followed by the endpoint path, with the address as the
    [text] query parameter and the key in the [x-api-key] header; the
    autocomplete client alone adds a [countryCode] query parameter.  The
    call ends with whatever that one request gave, response or transport
    failure, so nothing is sent a second time. *)
Theorem client_sends_one_get :
  forall (network : list request -> request -> outcome Response)
         (api_key address country_code : string) (w : world),
    let search :=
      mkRequest "GET" "https://api.lightboxre.com/v1/addresses/search"
                [("text", address)] [("x-api-key", api_key)] in
    let complete :=
      mkRequest "GET" "https://api.lightboxre.com/v1/addresses/_autocomplete"
                [("text", address); ("countryCode", country_code)]
                [("x-api-key", api_key)] in
    (fst (geocode_address network api_key address w) = network (sent w) search
     /\ sent (snd (geocode_address network api_key address w)) = (sent w ++ [search])%list)
    /\ (fst (autocomplete_address network api_key address country_code w)
        = network (sent w) complete
        /\ sent (snd (autocomplete_address network api_key address country_code w))
           = (sent w ++ [complete])%list).
Proof.
  intros network api_key address country_code w search complete.
  rewrite geocode_address_run, autocomplete_address_run.
  repeat split.
Qed.

(** ** The three terminal branches of the batch driver *)

(** C1, as stated, fails: on a 404 response the row carries the status text
    under [longitude] and ["Failed"] under [confidence_score]. *)
Lemma status_not_200_row_counterexample :
  sample_network [] (search_request "KEY" "5401") = Ok not_found
  /\ status_code not_found <> 200
  /\ exists (r : row) (w' : world),
       geocode_one sample_network "KEY" "5401" [] empty_world = (Ok [r], w')
       /\ ~ failed_row_as_specified (status_code not_found) r.
Proof.
  split; [reflexivity|]. split; [discriminate|].
  eexists; eexists. split; [vm_compute; reflexivity|].
  unfold failed_row_as_specified. cbn. intros (_ & H & _). discriminate H.
Qed.

(** C1 (amended).  When the response to an address has a status other than
    200, the row appended has ["Failed"] under [latitude], the text
    ["Status Code: <status>"] under [longitude], ["Failed"] under
    [confidence_score] and under [precision_code], and one diagnostic line
    naming the address and the status is printed. *)
Theorem status_not_200_row (network : list request -> request -> outcome Response)
  (api_key address : string) (rows : list row) (w : world) (r : Response) :
  network (sent w) (search_request api_key address) = Ok r ->
  status_code r <> 200 ->
  geocode_one network api_key address rows w
  = (Ok (rows ++
           [[("address", PStr address);
             ("latitude", PStr "Failed");
             ("longitude", PStr ("Status Code: " ++ str_of_int (status_code r)));
             ("confidence_score", PStr "Failed");
             ("precision_code", PStr "Failed")]])%list,
     mkWorld (sent w ++ [search_request api_key address])
             (stdout w ++
                ["Failed to geocode address '" ++ address ++ "', Status Code: "
                   ++ str_of_int (status_code r)])
             (files w)).
Proof.
  intros Hr Hs. rewrite (geocode_one_response _ _ _ _ _ _ Hr).
  apply Z.eqb_neq in Hs. rewrite Hs. reflexivity.
Qed.

Lemma status_not_200_row_witness :
  geocode_one sample_network "KEY" "5401" [] empty_world
  = (Ok [[("address", PStr "5401");
          ("latitude", PStr "Failed");
          ("longitude", PStr "Status Code: 404");
          ("confidence_score", PStr "Failed");
          ("precision_code", PStr "Failed")]],
     mkWorld [search_request "KEY" "5401"]
             ["Failed to geocode address '5401', Status Code: 404"] []).
Proof.
  apply (status_not_200_row sample_network "KEY" "5401" [] empty_world not_found).
  - reflexivity.
  - vm_compute. discriminate.
Defined.

(** C5.  When the response has status 200 and an empty [addresses] array,
    the row appended has ["No match"] under all four of [latitude],
    [longitude], [confidence_score] and [precision_code]. *)
Theorem no_match_row (network : list request -> request -> outcome Response)
  (api_key address : string) (rows : list row) (w : world) (r : Response)
  (body : pyval) :
  network (sent w) (search_request api_key address) = Ok r ->
  status_code r = 200 ->
  json r = Ok body ->
  getitem body "addresses" = Ok (PList []) ->
  geocode_one network api_key address rows w
  = (Ok (rows ++
           [[("address", PStr address);
             ("latitude", PStr "No match");
             ("longitude", PStr "No match");
             ("confidence_score", PStr "No match");
             ("precision_code", PStr "No match")]])%list,
     after_request w (search_request api_key address)).
Proof.
  intros Hr Hs Hj Ha. rewrite (geocode_one_response _ _ _ _ _ _ Hr).
  rewrite Hs. cbn [Z.eqb Pos.eqb]. unfold bind, lift. rewrite Hj, Ha. reflexivity.
Qed.

Lemma no_match_row_witness :
  geocode_one sample_network "KEY" "1 NOWHERE RD, ATLANTIS XX 00000" [] empty_world
  = (Ok [[("address", PStr "1 NOWHERE RD, ATLANTIS XX 00000");
          ("latitude", PStr "No match");
          ("longitude", PStr "No match");
          ("confidence_score", PStr "No match");
          ("precision_code", PStr "No match")]],
     after_request empty_world (search_request "KEY" "1 NOWHERE RD, ATLANTIS XX 00000")).
Proof.
  apply (no_match_row sample_network "KEY" "1 NOWHERE RD, ATLANTIS XX 00000" []
           empty_world no_candidates (PDict [("addresses", PList [])]));
    reflexivity.
Defined.

(** C4.  When the response has status 200 and a non-empty [addresses]
    array, the row takes [latitude] and [longitude] from
    [location.representativePoint] of the first element, [confidence_score]
    from [$metadata.geocode.confidence.score] and [precision_code] from
    [$metadata.geocode.precisionCode] of the first element; the elements
    after the first, however many, have no part in the row. *)
Theorem matched_row (network : list request -> request -> outcome Response)
  (api_key address : string) (rows : list row) (w : world) (r : Response)
  (body first_match : pyval) (others : list pyval)
  (latitude longitude confidence_score precision_code : pyval) :
  network (sent w) (search_request api_key address) = Ok r ->
  status_code r = 200 ->
  json r = Ok body ->
  getitem body "addresses" = Ok (PList (first_match :: others)) ->
  subscript first_match ["location"; "representativePoint"; "latitude"] = Ok latitude ->
  subscript first_match ["location"; "representativePoint"; "longitude"] = Ok longitude ->
  subscript first_match ["$metadata"; "geocode"; "confidence"; "score"]
  = Ok confidence_score ->
  subscript first_match ["$metadata"; "geocode"; "precisionCode"] = Ok precision_code ->
  geocode_one network api_key address rows w
  = (Ok (rows ++
           [[("address", PStr address);
             ("latitude", latitude);
             ("longitude", longitude);
             ("confidence_score", confidence_score);
             ("precision_code", precision_code)]])%list,
     after_request w (search_request api_key address)).
Proof.
  intros Hr Hs Hj Ha Hlat Hlon Hconf Hprec.
  rewrite (geocode_one_response _ _ _ _ _ _ Hr).
  rewrite Hs. cbn [Z.eqb Pos.eqb]. unfold bind, lift. rewrite Hj, Ha.
  cbn [truthy getitem0]. rewrite Hlat, Hlon, Hconf, Hprec. reflexivity.
Qed.

Lemma matched_row_witness :
  geocode_one sample_network "KEY" "5201 C ST, PHILADELPHIA PA 19120-3608" [] empty_world
  = (Ok [[("address", PStr "5201 C ST, PHILADELPHIA PA 19120-3608");
          ("latitude", PFloat lat_philadelphia);
          ("longitude", PFloat lon_philadelphia);
          ("confidence_score", PInt 98);
          ("precision_code", PStr "rooftop")]],
     after_request empty_world
       (search_request "KEY" "5201 C ST, PHILADELPHIA PA 19120-3608")).
Proof.
  apply (matched_row sample_network "KEY" "5201 C ST, PHILADELPHIA PA 19120-3608" []
           empty_world two_candidates
           (PDict [("addresses",
                    PList [candidate "5201 C ST, PHILADELPHIA, PA 19120-3608, US"
                                     lat_philadelphia lon_philadelphia 98 "rooftop";
                           candidate "5201 C ST, SACRAMENTO, CA 95819-2323, US"
                                     lat_sacramento lon_sacramento 41 "street"])])
           (candidate "5201 C ST, PHILADELPHIA, PA 19120-3608, US"
                      lat_philadelphia lon_philadelphia 98 "rooftop")
           [candidate "5201 C ST, SACRAMENTO, CA 95819-2323, US"
                      lat_sacramento lon_sacramento 41 "street"]);
    reflexivity.
Defined.

(** ** Batches *)

Section Batches.

Context {A : Type}.

Lemma firstn_plus (a b : nat) (l : list A) :
  firstn (a + b) l = (firstn a l ++ firstn b (skipn a l))%list.
Proof.
  revert l. induction a as [|a IH]; intros l; [reflexivity|].
  destruct l as [|x l]; cbn.
  - now rewrite firstn_nil.
  - now rewrite IH.
Qed.

(** A slice with a non-negative start and a positive width is the next
    [width] elements after the start. *)
Lemma py_slice_chunk (l : list A) (i width : nat) :
  py_slice l (Z.of_nat i) (Z.of_nat i + Z.of_nat width)
  = firstn width (skipn i l).
Proof.
  unfold py_slice, clamp_index.
  destruct (Z.ltb_spec (Z.of_nat i) 0) as [?|_]; [lia|].
  destruct (Z.ltb_spec (Z.of_nat i + Z.of_nat width) 0) as [?|_]; [lia|].
  destruct (Nat.le_gt_cases (List.length l) i) as [Hfar|Hin].
  - rewrite !Z.min_r by lia.
    replace (Z.to_nat (Z.of_nat (List.length l) - Z.of_nat (List.length l))) with 0%nat by lia.
    rewrite (skipn_all2 l Hfar). now rewrite firstn_nil.
  - rewrite (Z.min_l (Z.of_nat i)) by lia. rewrite Nat2Z.id.
    destruct (Z.le_gt_cases (Z.of_nat i + Z.of_nat width) (Z.of_nat (List.length l)))
      as [Hfit|Hover].
    + rewrite Z.min_l by lia. f_equal. lia.
    + rewrite Z.min_r by lia.
      rewrite !firstn_all2; try reflexivity; rewrite length_skipn; lia.
Qed.

(** The first [m] chunks of width [width], put end to end, are the first
    [m * width] elements. *)
Lemma chunks_prefix (l : list A) (width m : nat) :
  List.concat (map (fun i => py_slice l i (i + Z.of_nat width))
              (map (fun k => 0 + Z.of_nat k * Z.of_nat width) (seq 0 m)))
  = firstn (m * width) l.
Proof.
  induction m as [|m IH]; [reflexivity|].
  rewrite seq_S, !map_app, concat_app, IH. cbn [map List.concat Nat.add].
  rewrite app_nil_r.
  replace (0 + Z.of_nat m * Z.of_nat width) with (Z.of_nat (m * width)) by lia.
  rewrite py_slice_chunk.
  replace (S m * width)%nat with (m * width + width)%nat by lia.
  now rewrite firstn_plus.
Qed.

(** The chunks of the list comprehension of [batch_geocode_addresses]
    partition the list: end to end they give it back. *)
Lemma batches_partition (l : list A) (batch_size : Z) :
  1 <= batch_size ->
  exists starts,
    py_range 0 (Z.of_nat (List.length l)) batch_size = Ok starts
    /\ List.concat (map (fun i => py_slice l i (i + batch_size)) starts) = l.
Proof.
  intros Hb.
  assert (Hw : batch_size = Z.of_nat (Z.to_nat batch_size)) by lia.
  revert Hb. rewrite Hw. generalize (Z.to_nat batch_size) as width.
  clear Hw batch_size. intros width Hb. unfold py_range.
  destruct (Z.eqb_spec (Z.of_nat width) 0) as [?|_]; [lia|].
  eexists; split; [reflexivity|].
  rewrite chunks_prefix. apply firstn_all2.
  unfold range_len.
  destruct (Z.ltb_spec 0 (Z.of_nat width)) as [_|?]; [|lia].
  destruct (Z.ltb_spec 0 (Z.of_nat (List.length l))) as [Hpos|?]; [|lia].
  rewrite Z.sub_0_r.
  pose proof (Z.div_mod (Z.of_nat (List.length l) - 1) (Z.of_nat width) ltac:(lia)) as Hdm.
  pose proof (Z.mod_pos_bound (Z.of_nat (List.length l) - 1) (Z.of_nat width) ltac:(lia))
    as Hm.
  pose proof (Z.div_pos (Z.of_nat (List.length l) - 1) (Z.of_nat width)
                ltac:(lia) ltac:(lia)) as Hq.
  apply Nat2Z.inj_le. rewrite Nat2Z.inj_mul, !Z2Nat.id by lia. nia.
Qed.

End Batches.

(** ** Loops *)

Lemma for_each_app {A S : Type} (xs ys : list A) (body : A -> S -> M S) (s : S)
  (w : world) :
  for_each (xs ++ ys) body s w
  = (s' <- for_each xs body s ;; for_each ys body s') w.
Proof.
  revert s w. induction xs as [|x xs IH]; intros s w; [reflexivity|].
  cbn [for_each app]. unfold bind in *.
  destruct (body x s w) as [[s1|e] w1]; [apply IH | reflexivity].
Qed.

(** A loop over batches with a loop over each batch inside is the loop over
    the batches put end to end. *)
Lemma for_each_concat {A S : Type} (xss : list (list A)) (body : A -> S -> M S)
  (s : S) (w : world) :
  for_each xss (fun xs s => for_each xs body s) s w
  = for_each (List.concat xss) body s w.
Proof.
  revert s w. induction xss as [|xs xss IH]; intros s w; [reflexivity|].
  cbn [for_each List.concat]. rewrite for_each_app. unfold bind.
  destruct (for_each xs body s w) as [[s1|e] w1]; [|reflexivity].
  apply IH.
Qed.

(** With a batch size of at least one, the batch driver is the driver
    without batches. *)
Lemma batch_is_sequential (network : list request -> request -> outcome Response)
  (api_key : string) (addresses : list string) (batch_size : Z) (w : world) :
  1 <= batch_size ->
  batch_geocode_addresses network api_key addresses batch_size w
  = geocode_each network api_key addresses w.
Proof.
  intros Hb. destruct (batches_partition addresses batch_size Hb) as (starts & Hr & Hc).
  unfold batch_geocode_addresses, geocode_each.
  unfold bind at 1, lift. rewrite Hr.
  unfold bind. rewrite for_each_concat, Hc. reflexivity.
Qed.

(** C3.  For every address list, every batch size of at least one and
    every service, the batch driver gives the same result (the same rows in
    the same order, or the same error) and leaves the same world (the same
    requests sent in the same order, the same lines printed) as the
    iteration over the whole list one address at a time; the batches are a
    partition of the list that put end to end give the list back. *)
Theorem batching_is_a_no_op (network : list request -> request -> outcome Response)
  (api_key : string) (addresses : list string) (batch_size : Z) (w : world) :
  1 <= batch_size ->
  batch_geocode_addresses network api_key addresses batch_size w
  = geocode_each network api_key addresses w
  /\ exists starts,
       py_range 0 (Z.of_nat (List.length addresses)) batch_size = Ok starts
       /\ List.concat (map (fun i => py_slice addresses i (i + batch_size)) starts)
          = addresses.
Proof.
  intros Hb. split.
  - now apply batch_is_sequential.
  - now apply batches_partition.
Qed.

Lemma batching_is_a_no_op_witness :
  batch_geocode_addresses sample_network "KEY"
    ["5201 C ST, PHILADELPHIA PA 19120-3608"; "5401";
     "1 NOWHERE RD, ATLANTIS XX 00000"] 2 empty_world
  = geocode_each sample_network "KEY"
      ["5201 C ST, PHILADELPHIA PA 19120-3608"; "5401";
       "1 NOWHERE RD, ATLANTIS XX 00000"] empty_world
  /\ exists starts,
       py_range 0 3 2 = Ok starts
       /\ List.concat
            (map (fun i => py_slice ["5201 C ST, PHILADELPHIA PA 19120-3608"; "5401";
                                     "1 NOWHERE RD, ATLANTIS XX 00000"] i (i + 2))
                 starts)
          = ["5201 C ST, PHILADELPHIA PA 19120-3608"; "5401";
             "1 NOWHERE RD, ATLANTIS XX 00000"].
Proof.
  apply (batching_is_a_no_op sample_network "KEY"
           ["5201 C ST, PHILADELPHIA PA 19120-3608"; "5401";
            "1 NOWHERE RD, ATLANTIS XX 00000"] 2 empty_world).
  lia.
Defined.

(** C9.  On the empty address list (and a batch size other than zero, the
    default 200 among them) the batch driver sends no request and returns
    the frame with no rows and no columns, which [to_csv] then writes as a
    file whose header has no column name and which has no record. *)
Theorem empty_list_gives_empty_frame
  (network : list request -> request -> outcome Response)
  (api_key output_file_path : string) (batch_size : Z) (w : world) :
  batch_size <> 0 ->
  batch_geocode_addresses network api_key [] batch_size w = (Ok (mkDataFrame [] []), w)
  /\ (geocoded_data <- batch_geocode_addresses network api_key [] batch_size ;;
      to_csv geocoded_data output_file_path) w
     = (Ok tt, mkWorld (sent w) (stdout w) ((output_file_path, mkCsv [] []) :: files w)).
Proof.
  intros Hb.
  assert (Hrun : batch_geocode_addresses network api_key [] batch_size w
                 = (Ok (mkDataFrame [] []), w)).
  { unfold batch_geocode_addresses, bind, lift, py_range, range_len.
    destruct (Z.eqb_spec batch_size 0) as [?|_]; [contradiction|].
    cbn [List.length Z.of_nat Z.ltb Z.compare].
    destruct (0 <? batch_size); reflexivity. }
  split; [exact Hrun|].
  unfold bind. rewrite Hrun. reflexivity.
Qed.

Lemma empty_list_gives_empty_frame_witness :
  batch_geocode_addresses sample_network "KEY" [] default_batch_size empty_world
  = (Ok (mkDataFrame [] []), empty_world)
  /\ (geocoded_data <- batch_geocode_addresses sample_network "KEY" [] default_batch_size ;;
      to_csv geocoded_data "output.csv") empty_world
     = (Ok tt, mkWorld [] [] [("output.csv", mkCsv [] [])]).
Proof.
  apply (empty_list_gives_empty_frame sample_network "KEY" "output.csv"
           default_batch_size empty_world).
  discriminate.
Defined.

(** ** Rows *)

Ltac split_run H :=
  repeat match type of H with
    | context [match ?x with _ => _ end] => destruct x eqn:?
    | context [if ?b then _ else _] => destruct b eqn:?
    end; try discriminate H.

(** Whatever the loop body does when it returns: one request sent, one row
    appended, with the five labels in order and the input address under
    [address]; files untouched. *)
Lemma geocode_one_returns (network : list request -> request -> outcome Response)
  (api_key address : string) (rows rows' : list row) (w w' : world) :
  geocode_one network api_key address rows w = (Ok rows', w') ->
  exists r,
    rows' = (rows ++ [r])%list
    /\ map fst r = result_columns
    /\ dict_lookup r "address" = Some (PStr address)
    /\ sent w' = (sent w ++ [search_request api_key address])%list
    /\ files w' = files w.
Proof.
  intros H.
  destruct (network (sent w) (search_request api_key address)) as [r|e] eqn:Hn.
  - rewrite (geocode_one_response _ _ _ _ _ _ Hn) in H.
    unfold bind, lift, ret, print in H. split_run H;
      inversion H; subst; eexists; repeat split; reflexivity.
  - rewrite (geocode_one_transport_failure _ _ _ _ _ _ Hn) in H. discriminate H.
Qed.

(** C10.  In each of the three branches (matched, no match, failed) the row
    appended has under [address] the input address string itself. *)
Theorem address_field_is_input (network : list request -> request -> outcome Response)
  (api_key address : string) (rows rows' : list row) (w w' : world) :
  geocode_one network api_key address rows w = (Ok rows', w') ->
  exists r,
    rows' = (rows ++ [r])%list
    /\ dict_lookup r "address" = Some (PStr address).
Proof.
  intros H. destruct (geocode_one_returns _ _ _ _ _ _ _ H) as (r & Hr & _ & Ha & _).
  now exists r.
Qed.

Lemma address_field_is_input_witness :
  exists r,
    [[("address", PStr "5201 C ST, PHILADELPHIA PA 19120-3608");
      ("latitude", PFloat lat_philadelphia);
      ("longitude", PFloat lon_philadelphia);
      ("confidence_score", PInt 98);
      ("precision_code", PStr "rooftop")]] = ([] ++ [r])%list
    /\ dict_lookup r "address" = Some (PStr "5201 C ST, PHILADELPHIA PA 19120-3608").
Proof.
  apply (address_field_is_input sample_network "KEY"
           "5201 C ST, PHILADELPHIA PA 19120-3608" [] _ empty_world
           (after_request empty_world
              (search_request "KEY" "5201 C ST, PHILADELPHIA PA 19120-3608"))).
  vm_compute. reflexivity.
Defined.

(** ** Whole runs *)

Lemma has_path_subscript (keys : list string) (v : pyval) :
  has_path v keys = true -> exists x, subscript v keys = Ok x.
Proof.
  revert v. induction keys as [|k keys IH]; intros v H; cbn in *.
  - now exists v.
  - destruct v; try discriminate H. cbn [getitem].
    destruct (dict_lookup d k) as [x|]; [|discriminate H]. now apply IH.
Qed.

Lemma no_path_subscript (keys : list string) (v : pyval) :
  has_path v keys = false -> exists e, subscript v keys = Raise e.
Proof.
  revert v. induction keys as [|k keys IH]; intros v H; cbn in *.
  - discriminate H.
  - destruct v; cbn [getitem]; try (eexists; reflexivity).
    destruct (dict_lookup d k) as [x|]; [now apply IH | eexists; reflexivity].
Qed.

Section Runs.

Variable network : list request -> request -> outcome Response.
Variable api_key : string.

(** On a well-formed response the loop body returns. *)
Lemma geocode_one_well_formed (address : string) (rows : list row) (w : world)
  (r : Response) :
  network (sent w) (search_request api_key address) = Ok r ->
  well_formed r = true ->
  exists rows' w', geocode_one network api_key address rows w = (Ok rows', w').
Proof.
  intros Hn Hwf. rewrite (geocode_one_response _ _ _ _ _ _ Hn).
  unfold well_formed in Hwf.
  destruct (status_code r =? 200); [|eexists; eexists; reflexivity].
  unfold bind, lift.
  destruct (json r) as [[| | | | | |d]|]; try discriminate Hwf.
  cbn [getitem].
  destruct (dict_lookup d "addresses") as [[| | | | |[|m others]|]|];
    try discriminate Hwf.
  - eexists; eexists; reflexivity.
  - cbn [truthy getitem0]. unfold complete_match, expected_paths in Hwf.
    cbn [forallb] in Hwf.
    apply andb_prop in Hwf as [H1 Hwf]. apply andb_prop in Hwf as [H2 Hwf].
    apply andb_prop in Hwf as [H3 Hwf]. apply andb_prop in Hwf as [H4 _].
    apply has_path_subscript in H1 as [x1 ->]. apply has_path_subscript in H2 as [x2 ->].
    apply has_path_subscript in H3 as [x3 ->]. apply has_path_subscript in H4 as [x4 ->].
    eexists; eexists; reflexivity.
Qed.

Lemma for_each_well_formed (addresses : list string) :
  (forall history address,
     In address addresses ->
     exists r, network history (search_request api_key address) = Ok r
               /\ well_formed r = true) ->
  forall (rows : list row) (w : world),
  exists new w',
    for_each addresses (geocode_one network api_key) rows w = (Ok (rows ++ new)%list, w')
    /\ Forall2 row_for addresses new
    /\ sent w' = (sent w ++ map (search_request api_key) addresses)%list
    /\ files w' = files w.
Proof.
  induction addresses as [|a addresses IH]; intros Hnet rows w.
  - exists [], w. cbn. rewrite !app_nil_r. repeat split. constructor.
  - destruct (Hnet (sent w) a (or_introl eq_refl)) as (r & Hn & Hwf).
    destruct (geocode_one_well_formed a rows w r Hn Hwf) as (rows1 & w1 & Hone).
    destruct (geocode_one_returns _ _ _ _ _ _ _ Hone) as (x & -> & Hk & Ha & Hs & Hf).
    destruct (IH (fun h b Hb => Hnet h b (or_intror Hb)) (rows ++ [x])%list w1)
      as (new & w' & Hrun & Hall & Hs' & Hf').
    exists (x :: new), w'. cbn [for_each]. unfold bind. rewrite Hone, Hrun.
    rewrite <- app_assoc. cbn [app map]. repeat split.
    + constructor; [split; assumption | assumption].
    + rewrite Hs', Hs, <- app_assoc. reflexivity.
    + congruence.
Qed.

End Runs.

(** ** Frames of result rows *)

Ltac five_fields r H :=
  destruct r as [|[? ?] [|[? ?] [|[? ?] [|[? ?] [|[? ?] [|? ?]]]]]];
  try discriminate H; cbn in H; injection H as -> -> -> -> ->.

Lemma add_keys_result_columns (r : row) :
  map fst r = result_columns ->
  add_keys [] r = result_columns /\ add_keys result_columns r = result_columns.
Proof.
  intros H. five_fields r H. split; reflexivity.
Qed.

Lemma frame_columns_rows (addresses : list string) (rows : list row) :
  Forall2 row_for addresses rows ->
  rows <> [] ->
  frame_columns rows = result_columns.
Proof.
  intros Hall Hne. destruct Hall as [|a r addresses rows [Hk _] Hall]; [contradiction|].
  unfold frame_columns. cbn [fold_left].
  rewrite (proj1 (add_keys_result_columns r Hk)). clear Hne Hk.
  induction Hall as [|b x addresses rows [Hk _] _ IH]; [reflexivity|].
  cbn [fold_left]. now rewrite (proj2 (add_keys_result_columns x Hk)).
Qed.

Lemma address_cell (address : string) (r : row) :
  row_for address r ->
  series_get result_columns (map (frame_cell r) result_columns) "address"
  = Ok (PStr address).
Proof.
  intros [Hk Ha]. five_fields r Hk. cbn in Ha. injection Ha as ->. reflexivity.
Qed.

(** The frame of the rows of a run has one row per address and, under
    [address], the addresses in order. *)
Lemma frame_of_rows (addresses : list string) (rows : list row) :
  Forall2 row_for addresses rows ->
  List.length (data (pd_DataFrame rows)) = List.length addresses
  /\ column_values (pd_DataFrame rows) "address"
     = map (fun a => Ok (PStr a)) addresses.
Proof.
  intros Hall. split.
  - unfold pd_DataFrame. cbn [data]. rewrite length_map.
    symmetry. exact (Forall2_length Hall).
  - destruct rows as [|r rows].
    + inversion Hall. reflexivity.
    + unfold column_values, pd_DataFrame. cbn [columns data].
      rewrite (frame_columns_rows addresses (r :: rows) Hall) by discriminate.
      rewrite map_map.
      induction Hall as [|a x addresses' rows' Hx _ IH]; [reflexivity|].
      cbn [map]. now rewrite (address_cell a x Hx), IH.
Qed.

(** C2.  For every list of N addresses and every batch size of at least
    one (the default 200 among them), when each response is well formed the
    batch driver returns a frame with exactly N rows, whose [address]
    column is the input list in its order, duplicates kept, after one
    request per address sent in input order. *)
Theorem one_row_per_address (network : list request -> request -> outcome Response)
  (api_key : string) (addresses : list string) (batch_size : Z) (w : world) :
  1 <= batch_size ->
  (forall history address,
     In address addresses ->
     exists r, network history (search_request api_key address) = Ok r
               /\ well_formed r = true) ->
  exists df w',
    batch_geocode_addresses network api_key addresses batch_size w = (Ok df, w')
    /\ List.length (data df) = List.length addresses
    /\ column_values df "address" = map (fun a => Ok (PStr a)) addresses
    /\ sent w' = (sent w ++ map (search_request api_key) addresses)%list.
Proof.
  intros Hb Hnet. rewrite batch_is_sequential by exact Hb.
  destruct (for_each_well_formed network api_key addresses Hnet [] w)
    as (rows & w' & Hrun & Hall & Hs & _).
  cbn [app] in Hrun.
  exists (pd_DataFrame rows), w'. unfold geocode_each, bind. rewrite Hrun.
  destruct (frame_of_rows addresses rows Hall) as [Hlen Hcol].
  repeat split; assumption.
Qed.

Lemma one_row_per_address_witness :
  exists df w',
    batch_geocode_addresses sample_network "KEY"
      ["5201 C ST, PHILADELPHIA PA 19120-3608"; "5401";
       "5201 C ST, PHILADELPHIA PA 19120-3608"] 2 empty_world = (Ok df, w')
    /\ List.length (data df) = 3%nat
    /\ column_values df "address"
       = [Ok (PStr "5201 C ST, PHILADELPHIA PA 19120-3608"); Ok (PStr "5401");
          Ok (PStr "5201 C ST, PHILADELPHIA PA 19120-3608")]
    /\ sent w'
       = [search_request "KEY" "5201 C ST, PHILADELPHIA PA 19120-3608";
          search_request "KEY" "5401";
          search_request "KEY" "5201 C ST, PHILADELPHIA PA 19120-3608"].
Proof.
  apply (one_row_per_address sample_network "KEY"
           ["5201 C ST, PHILADELPHIA PA 19120-3608"; "5401";
            "5201 C ST, PHILADELPHIA PA 19120-3608"] 2 empty_world).
  - lia.
  - intros history address [<-|[<-|[<-|[]]]]; eexists; split; reflexivity.
Defined.

(** ** Aborted runs *)

Section Aborts.

Variable network : list request -> request -> outcome Response.
Variable api_key : string.

(** Returning or raising, the loop body sends one request and writes no
    file. *)
Lemma geocode_one_effects (address : string) (rows : list row) (w : world) :
  sent (snd (geocode_one network api_key address rows w))
  = (sent w ++ [search_request api_key address])%list
  /\ files (snd (geocode_one network api_key address rows w)) = files w.
Proof.
  destruct (network (sent w) (search_request api_key address)) as [r|e] eqn:Hn.
  - rewrite (geocode_one_response _ _ _ _ _ _ Hn).
    unfold bind, lift, ret, print.
    repeat match goal with
      | |- context [match ?x with _ => _ end] => destruct x
      | |- context [if ?b then _ else _] => destruct b
      end; split; reflexivity.
  - rewrite (geocode_one_transport_failure _ _ _ _ _ _ Hn). split; reflexivity.
Qed.

(** A loop over addresses sends at most one request per address and writes
    no file. *)
Lemma for_each_effects (addresses : list string) (rows : list row) (w : world) :
  (List.length (sent (snd (for_each addresses (geocode_one network api_key) rows w)))
   <= List.length (sent w) + List.length addresses)%nat
  /\ files (snd (for_each addresses (geocode_one network api_key) rows w)) = files w.
Proof.
  revert rows w. induction addresses as [|a addresses IH]; intros rows w.
  - cbn. split; [lia | reflexivity].
  - cbn [for_each]. unfold bind.
    destruct (geocode_one_effects a rows w) as [Hs Hf].
    destruct (geocode_one network api_key a rows w) as [[rows1|e] w1]; cbn [snd] in *.
    + destruct (IH rows1 w1) as [Hs' Hf']. rewrite Hs, length_app in Hs'. cbn in Hs'.
      split; [cbn [List.length]; lia | congruence].
    + rewrite Hs, length_app. cbn. split; [lia | assumption].
Qed.

(** A 200 response whose body lacks an expected field makes the loop body
    raise. *)
Lemma geocode_one_lacking (address : string) (rows : list row) (w : world)
  (r : Response) (body : pyval) :
  network (sent w) (search_request api_key address) = Ok r ->
  status_code r = 200 ->
  json r = Ok body ->
  lacks_expected_field body = true ->
  exists e, fst (geocode_one network api_key address rows w) = Raise e.
Proof.
  intros Hn Hs Hj Hl. rewrite (geocode_one_response _ _ _ _ _ _ Hn), Hs.
  cbn [Z.eqb Pos.eqb]. unfold bind, lift. rewrite Hj.
  destruct body as [| | | | | |d]; try discriminate Hl. cbn [lacks_expected_field] in Hl.
  cbn [getitem].
  destruct (dict_lookup d "addresses") as [[| | | | |[|m others]|]|];
    try discriminate Hl; [|eexists; reflexivity].
  cbn [truthy getitem0]. apply negb_true_iff in Hl.
  unfold complete_match, expected_paths in Hl. cbn [forallb] in Hl.
  repeat match type of Hl with
    | (has_path m ?p && _)%bool = false =>
        destruct (has_path m p) eqn:Hp;
        [ apply has_path_subscript in Hp as [? ->]; cbn [andb] in Hl
        | apply no_path_subscript in Hp as [? ->]; eexists; reflexivity ]
    end.
  discriminate Hl.
Qed.

(** The address with the lacking body stops the loop, at that address or
    before. *)
Lemma for_each_aborts (pre post : list string) (address : string) :
  (forall history,
     exists r body,
       network history (search_request api_key address) = Ok r
       /\ status_code r = 200 /\ json r = Ok body
       /\ lacks_expected_field body = true) ->
  forall (rows : list row) (w : world),
  exists e w',
    for_each (pre ++ address :: post) (geocode_one network api_key) rows w = (Raise e, w')
    /\ files w' = files w
    /\ (List.length (sent w') <= List.length (sent w) + List.length pre + 1)%nat.
Proof.
  intros Hnet rows w. rewrite for_each_app. unfold bind.
  destruct (for_each_effects pre rows w) as [Hs Hf].
  destruct (for_each pre (geocode_one network api_key) rows w) as [[rows1|e] w1];
    cbn [snd] in *.
  - cbn [for_each]. unfold bind.
    destruct (Hnet (sent w1)) as (r & body & Hn & Hst & Hj & Hl).
    destruct (geocode_one_lacking address rows1 w1 r body Hn Hst Hj Hl) as [e He].
    destruct (geocode_one_effects address rows1 w1) as [Hs1 Hf1].
    destruct (geocode_one network api_key address rows1 w1) as [o w2]; cbn [fst snd] in *.
    subst o. exists e, w2. rewrite Hs1, length_app. cbn [List.length].
    repeat split; [congruence | lia].
  - exists e, w1. repeat split; [assumption | lia].
Qed.

(** The same for the batch driver. *)
Lemma batch_aborts (pre post : list string) (address : string) (batch_size : Z) :
  1 <= batch_size ->
  (forall history,
     exists r body,
       network history (search_request api_key address) = Ok r
       /\ status_code r = 200 /\ json r = Ok body
       /\ lacks_expected_field body = true) ->
  forall w : world,
  exists e w',
    batch_geocode_addresses network api_key (pre ++ address :: post) batch_size w
    = (Raise e, w')
    /\ files w' = files w
    /\ (List.length (sent w') <= List.length (sent w) + List.length pre + 1)%nat.
Proof.
  intros Hb Hnet w. rewrite batch_is_sequential by exact Hb.
  destruct (for_each_aborts pre post address Hnet [] w) as (e & w' & Hrun & Hf & Hs).
  exists e, w'. unfold geocode_each, bind. rewrite Hrun. repeat split; assumption.
Qed.

End Aborts.

(** The reader's table: a file with a column or a record is parsed. *)
Lemma read_csv_table (path : string) (w : world) (f : csv_file) :
  find_file (files w) path = Some f ->
  header f <> [] \/ records f <> [] ->
  read_csv path w = (Ok (mkDataFrame (header f) (records f)), w).
Proof.
  intros Hfind Hsome. unfold read_csv. rewrite Hfind.
  destruct (header f) as [|l labels], (records f) as [|r rows]; try reflexivity.
  destruct Hsome as [H|H]; now contradiction H.
Qed.

(** Addresses come from rows. *)
Lemma apply_rows_from_rows {B : Type} (f : (string -> outcome pyval) -> outcome B)
  (labels : list string) (rows : list (list pyval)) (b : B) (bs : list B) :
  apply_rows f labels rows = Ok (b :: bs) -> rows <> [].
Proof.
  intros H ->. cbn in H.
  destruct (f (series_get labels (map (fun _ => PFloat S754_nan) labels)));
    discriminate H.
Qed.

(** C6.  When the response to an address has status 200 and a body that
    lacks an expected field (no [addresses] key, or a first match without
    one of the fields read from [location] and [$metadata]), the batch
    driver raises, with a batch size of at least one: no frame is returned,
    so the rows of the addresses before it are gone, no file is written,
    and no address after it is requested.  Run from the notebook, the run
    stops there and the output file is not written. *)
Theorem lacking_field_aborts_run
  (network : list request -> request -> outcome Response)
  (repr_other : pyval -> string) (api_key address : string)
  (pre post : list string) (batch_size : Z) (w : world) :
  1 <= batch_size ->
  (forall history,
     exists r body,
       network history (search_request api_key address) = Ok r
       /\ status_code r = 200 /\ json r = Ok body
       /\ lacks_expected_field body = true) ->
  (exists e w',
     batch_geocode_addresses network api_key (pre ++ address :: post) batch_size w
     = (Raise e, w')
     /\ files w' = files w
     /\ (List.length (sent w') <= List.length (sent w) + List.length pre + 1)%nat)
  /\ (forall (input_file_path output_file_path : string) (f : csv_file),
        find_file (files w) input_file_path = Some f ->
        apply_rows (format_address repr_other) (header f) (records f)
        = Ok (pre ++ address :: post)%list ->
        exists e w',
          run_notebook network repr_other api_key input_file_path output_file_path w
          = (Raise e, w')
          /\ files w' = files w).
Proof.
  intros Hb Hnet. split.
  - now apply batch_aborts.
  - intros input output f Hfind Hfmt.
    assert (Hrec : records f <> []).
    { destruct pre; exact (apply_rows_from_rows _ _ _ _ _ Hfmt). }
    unfold run_notebook, read_addresses_from_csv, bind, print, lift, ret.
    rewrite (read_csv_table input
               (mkWorld (sent w) (stdout w ++ ["Reading addresses from CSV file..."])
                        (files w)) f Hfind (or_intror Hrec)).
    cbn [columns data]. rewrite Hfmt.
    match goal with
    | |- context [batch_geocode_addresses _ _ _ _ ?w1] =>
        destruct (batch_aborts network api_key pre post address default_batch_size
                    ltac:(discriminate) Hnet w1) as (e & w' & Hrun & Hf & _)
    end.
    rewrite Hrun. exists e, w'. split; [reflexivity | exact Hf].
Qed.

Lemma lacking_field_aborts_run_witness :
  (exists e w',
     batch_geocode_addresses sample_network "KEY"
       (["5201 C ST, PHILADELPHIA PA 19120-3608"; " 12 Main St , Boston MA 02134"]
          ++ "9 BROKEN LN, NOWHERE ZZ 99999" :: []) 2 sample_world
     = (Raise e, w')
     /\ files w' = files sample_world
     /\ (List.length (sent w') <= List.length (sent sample_world) + 2 + 1)%nat)
  /\ (forall (input_file_path output_file_path : string) (f : csv_file),
        find_file (files sample_world) input_file_path = Some f ->
        apply_rows (format_address sample_repr) (header f) (records f)
        = Ok (["5201 C ST, PHILADELPHIA PA 19120-3608"; " 12 Main St , Boston MA 02134"]
                ++ "9 BROKEN LN, NOWHERE ZZ 99999" :: [])%list ->
        exists e w',
          run_notebook sample_network sample_repr "KEY" input_file_path
            output_file_path sample_world
          = (Raise e, w')
          /\ files w' = files sample_world).
Proof.
  apply (lacking_field_aborts_run sample_network sample_repr "KEY"
           "9 BROKEN LN, NOWHERE ZZ 99999"
           ["5201 C ST, PHILADELPHIA PA 19120-3608"; " 12 Main St , Boston MA 02134"]
           [] 2 sample_world).
  - lia.
  - intros history. exists no_addresses_key, (PDict [("results", PList [])]).
    repeat split.
Defined.

(** The notebook on the sample input: the third address has a body with no
    [addresses] key, the run raises [KeyError] and leaves the files as they
    were. *)
Example run_notebook_aborts :
  exists w',
    run_notebook sample_network sample_repr "KEY" "input.csv" "output.csv" sample_world
    = (Raise (KeyError (PStr "addresses")), w')
    /\ files w' = files sample_world
    /\ List.length (sent w') = 3%nat.
Proof. eexists. split; [vm_compute; reflexivity | split; reflexivity]. Qed.

(** ** The formatter *)

Lemma each_row_format (repr_other : pyval -> string) (labels : list string)
  (rows : list (list pyval)) (recs : list AddressRecord) :
  Forall2 (row_holds labels) rows recs ->
  each_row (format_address repr_other) labels rows
  = Ok (map (FormattedAddress repr_other) recs).
Proof.
  induction 1 as [|cells rec rows recs (Hs & Hc & Hst & Hz) _ IH]; [reflexivity|].
  cbn [each_row map]. rewrite IH. unfold format_address, and_then.
  rewrite Hs, Hc, Hst, Hz. reflexivity.
Qed.

Lemma series_get_present (labels : list string) (label : string) :
  In label labels ->
  forall cells, List.length cells = List.length labels ->
                exists v, series_get labels cells label = Ok v.
Proof.
  induction labels as [|l labels IH]; intros Hin cells Hlen; [contradiction|].
  destruct cells as [|c cells]; [discriminate Hlen|]. cbn [series_get].
  destruct (String.eqb_spec label l) as [_|Hne]; [now exists c|].
  destruct Hin as [->|Hin]; [contradiction|].
  apply IH; [exact Hin | now injection Hlen].
Qed.

(** With the four columns there, the lambda returns on a row of [NaN]. *)
Lemma format_address_on_nan (repr_other : pyval -> string) (labels : list string) :
  (forall label, In label required_columns -> In label labels) ->
  exists text,
    format_address repr_other
      (series_get labels (map (fun _ => PFloat S754_nan) labels)) = Ok text.
Proof.
  intros Hreq. unfold format_address, and_then.
  assert (Hget : forall label, In label required_columns ->
                 exists v, series_get labels (map (fun _ => PFloat S754_nan) labels) label
                           = Ok v).
  { intros label Hin. apply series_get_present; [now apply Hreq | apply length_map]. }
  destruct (Hget "Address" ltac:(cbn; tauto)) as [v1 ->].
  destruct (Hget "City" ltac:(cbn; tauto)) as [v2 ->].
  destruct (Hget "State" ltac:(cbn; tauto)) as [v3 ->].
  destruct (Hget "Zip Code" ltac:(cbn; tauto)) as [v4 ->].
  eexists. reflexivity.
Qed.

Lemma frame_values_length (rows : list (list pyval)) :
  List.length (frame_values rows) = List.length rows.
Proof.
  unfold frame_values.
  destruct (forallb _ _ && existsb _ _ && existsb _ _)%bool; [apply length_map | reflexivity].
Qed.

Lemma frame_values_nil : frame_values [] = [].
Proof. reflexivity. Qed.

Lemma apply_rows_format (repr_other : pyval -> string) (labels : list string)
  (rows : list (list pyval)) (recs : list AddressRecord) :
  (forall label, In label required_columns -> In label labels) ->
  Forall2 (row_holds labels) (frame_values rows) recs ->
  apply_rows (format_address repr_other) labels rows
  = Ok (map (FormattedAddress repr_other) recs).
Proof.
  intros Hreq Hrows. destruct rows as [|r rows].
  - rewrite frame_values_nil in Hrows. inversion Hrows. subst. cbn [apply_rows map].
    destruct (format_address_on_nan repr_other labels Hreq) as [text ->]. reflexivity.
  - cbn [apply_rows]. now apply each_row_format.
Qed.

(** C7.  For every input row the formatter gives the text
    ["{street}, {city} {state} {zipCode}"] of its four fields, which for
    text fields is their concatenation with [", "], [" "] and [" "] between
    them, nothing trimmed, checked or escaped; the record of the
    specification gives ["5201 C ST, PHILADELPHIA PA 19120-3608"]; and the
    list returned has one entry per row, in the order of the rows.  The
    table has the four columns, and the fields of a row are its values as
    [df.apply] hands them to the lambda. *)
Theorem formatter_is_concatenation (repr_other : pyval -> string)
  (file_path : string) (w : world) (f : csv_file) (recs : list AddressRecord) :
  find_file (files w) file_path = Some f ->
  (forall label, In label required_columns -> In label (header f)) ->
  Forall2 (row_holds (header f)) (frame_values (records f)) recs ->
  (read_addresses_from_csv repr_other file_path w
   = (Ok (map (FormattedAddress repr_other) recs), w)
   /\ List.length (map (FormattedAddress repr_other) recs) = List.length (records f))
  /\ (forall a c s z : string,
        FormattedAddress repr_other (mkAddressRecord (PStr a) (PStr c) (PStr s) (PStr z))
        = a ++ ", " ++ c ++ " " ++ s ++ " " ++ z)
  /\ FormattedAddress repr_other
       (mkAddressRecord (PStr "5201 C ST") (PStr "PHILADELPHIA") (PStr "PA")
                        (PStr "19120-3608"))
     = "5201 C ST, PHILADELPHIA PA 19120-3608".
Proof.
  intros Hfind Hreq Hrows. repeat split.
  - assert (Hhead : header f <> []).
    { intros Hnil. specialize (Hreq "Address" ltac:(cbn; tauto)).
      rewrite Hnil in Hreq. contradiction. }
    unfold read_addresses_from_csv, bind, lift, ret.
    rewrite (read_csv_table file_path w f Hfind (or_introl Hhead)). cbn [columns data].
    now rewrite (apply_rows_format repr_other _ _ _ Hreq Hrows).
  - rewrite length_map, <- (frame_values_length (records f)).
    symmetry. exact (Forall2_length Hrows).
Qed.

Lemma formatter_is_concatenation_witness :
  (read_addresses_from_csv sample_repr "input.csv" sample_world
   = (Ok (map (FormattedAddress sample_repr)
            [mkAddressRecord (PStr "5201 C ST") (PStr "PHILADELPHIA") (PStr "PA")
                             (PStr "19120-3608");
             mkAddressRecord (PStr " 12 Main St ") (PStr "Boston") (PStr "MA") (PStr "02134");
             mkAddressRecord (PStr "9 BROKEN LN") (PStr "NOWHERE") (PStr "ZZ") (PStr "99999")]),
      sample_world)
   /\ List.length
        (map (FormattedAddress sample_repr)
           [mkAddressRecord (PStr "5201 C ST") (PStr "PHILADELPHIA") (PStr "PA")
                            (PStr "19120-3608");
            mkAddressRecord (PStr " 12 Main St ") (PStr "Boston") (PStr "MA") (PStr "02134");
            mkAddressRecord (PStr "9 BROKEN LN") (PStr "NOWHERE") (PStr "ZZ") (PStr "99999")])
      = List.length (records sample_input))
  /\ (forall a c s z : string,
        FormattedAddress sample_repr (mkAddressRecord (PStr a) (PStr c) (PStr s) (PStr z))
        = a ++ ", " ++ c ++ " " ++ s ++ " " ++ z)
  /\ FormattedAddress sample_repr
       (mkAddressRecord (PStr "5201 C ST") (PStr "PHILADELPHIA") (PStr "PA")
                        (PStr "19120-3608"))
     = "5201 C ST, PHILADELPHIA PA 19120-3608".
Proof.
  apply (formatter_is_concatenation sample_repr "input.csv" sample_world sample_input).
  - reflexivity.
  - cbn. tauto.
  - repeat constructor.
Defined.

(** The formatted addresses of the sample input, blanks and leading zero
    as they are. *)
Example read_sample_input :
  read_addresses_from_csv sample_repr "input.csv" sample_world
  = (Ok ["5201 C ST, PHILADELPHIA PA 19120-3608"; " 12 Main St , Boston MA 02134";
         "9 BROKEN LN, NOWHERE ZZ 99999"], sample_world).
Proof. reflexivity. Qed.

(** ** End to end *)

(** Three addresses, answered by a match with two candidates, an empty
    match list and a 404: three rows in that order, one request each, one
    diagnostic line. *)
Example three_addresses :
  batch_geocode_addresses sample_network "KEY"
    ["5201 C ST, PHILADELPHIA PA 19120-3608"; "1 NOWHERE RD, ATLANTIS XX 00000"; "5401"]
    default_batch_size empty_world
  = (Ok (mkDataFrame
           result_columns
           [[PStr "5201 C ST, PHILADELPHIA PA 19120-3608"; PFloat lat_philadelphia;
             PFloat lon_philadelphia; PInt 98; PStr "rooftop"];
            [PStr "1 NOWHERE RD, ATLANTIS XX 00000"; PStr "No match"; PStr "No match";
             PStr "No match"; PStr "No match"];
            [PStr "5401"; PStr "Failed"; PStr "Status Code: 404"; PStr "Failed";
             PStr "Failed"]]),
     mkWorld
       [search_request "KEY" "5201 C ST, PHILADELPHIA PA 19120-3608";
        search_request "KEY" "1 NOWHERE RD, ATLANTIS XX 00000";
        search_request "KEY" "5401"]
       ["Failed to geocode address '5401', Status Code: 404"]
       []).
Proof. vm_compute. reflexivity. Qed.

(** Outside the batch sizes of at least one: a negative size makes no
    batch at all, and a size of zero is refused by [range]. *)
Example negative_batch_size :
  batch_geocode_addresses sample_network "KEY" ["5401"] (-1) empty_world
  = (Ok (mkDataFrame [] []), empty_world).
Proof. reflexivity. Qed.

Example zero_batch_size :
  batch_geocode_addresses sample_network "KEY" ["5401"] 0 empty_world
  = (Raise ValueError, empty_world).
Proof. reflexivity. Qed.

(** * Further properties of the notebooks *)

(** ** What a run of the batch driver does to the world *)

Section Effects.

Variable network : list request -> request -> outcome Response.
Variable api_key : string.

(** Returning or raising, the loop body prints the diagnostic of a status
    other than 200 and nothing else. *)
Lemma geocode_one_stdout (address : string) (rows : list row) (w : world) :
  stdout (snd (geocode_one network api_key address rows w))
  = (stdout w ++ lines_for address (network (sent w) (search_request api_key address)))%list.
Proof.
  destruct (network (sent w) (search_request api_key address)) as [r|e] eqn:Hn.
  - rewrite (geocode_one_response _ _ _ _ _ _ Hn). unfold lines_for.
    unfold bind, lift, ret, print.
    repeat match goal with
      | |- context [match ?x with _ => _ end] => destruct x
      | |- context [if ?b then _ else _] => destruct b
      end; cbn; rewrite ?app_nil_r; reflexivity.
  - rewrite (geocode_one_transport_failure _ _ _ _ _ _ Hn). cbn.
    now rewrite app_nil_r.
Qed.

(** A loop that returns has appended one row per address, in order, after
    one request per address. *)
Lemma for_each_returns (addresses : list string) :
  forall (rows rows' : list row) (w w' : world),
    for_each addresses (geocode_one network api_key) rows w = (Ok rows', w') ->
    exists new,
      rows' = (rows ++ new)%list
      /\ Forall2 row_for addresses new
      /\ sent w' = (sent w ++ map (search_request api_key) addresses)%list
      /\ files w' = files w.
Proof.
  induction addresses as [|a addresses IH]; intros rows rows' w w' H.
  - cbn in H. injection H as <- <-. exists []. cbn. rewrite !app_nil_r.
    repeat split. constructor.
  - cbn [for_each] in H. unfold bind in H.
    destruct (geocode_one network api_key a rows w) as [[rows1|e] w1] eqn:Hone;
      [|discriminate H].
    destruct (geocode_one_returns _ _ _ _ _ _ _ Hone) as (x & -> & Hk & Ha & Hs & Hf).
    destruct (IH _ _ _ _ H) as (new & -> & Hall & Hs' & Hf').
    exists (x :: new). rewrite <- app_assoc. cbn [app map]. repeat split.
    + constructor; [split; assumption | assumption].
    + rewrite Hs', Hs, <- app_assoc. reflexivity.
    + congruence.
Qed.

(** Whatever the outcome, the requests of a loop are those of a prefix of
    the addresses, in order; the whole list when the loop returns. *)
Lemma for_each_requests (addresses : list string) :
  forall (rows : list row) (w : world),
  exists n,
    (n <= List.length addresses)%nat
    /\ sent (snd (for_each addresses (geocode_one network api_key) rows w))
       = (sent w ++ map (search_request api_key) (firstn n addresses))%list.
Proof.
  induction addresses as [|a addresses IH]; intros rows w.
  - exists 0%nat. cbn. rewrite app_nil_r. split; [lia | reflexivity].
  - cbn [for_each]. unfold bind.
    destruct (geocode_one_effects network api_key a rows w) as [Hs _].
    destruct (geocode_one network api_key a rows w) as [[rows1|e] w1]; cbn [snd] in *.
    + destruct (IH rows1 w1) as (n & Hn & Hs'). exists (S n).
      split; [cbn [List.length]; lia|].
      rewrite Hs', Hs, <- app_assoc. reflexivity.
    + exists 1%nat. split; [cbn [List.length]; lia|].
      rewrite Hs. reflexivity.
Qed.

(** A batch size of zero is refused before anything is done. *)
Lemma batch_size_zero (addresses : list string) (w : world) :
  batch_geocode_addresses network api_key addresses 0 w = (Raise ValueError, w).
Proof. reflexivity. Qed.

(** A negative batch size makes no batch. *)
Lemma batch_size_negative (addresses : list string) (p : positive) (w : world) :
  batch_geocode_addresses network api_key addresses (Z.neg p) w
  = (Ok (mkDataFrame [] []), w).
Proof.
  unfold batch_geocode_addresses, bind, lift, py_range, range_len.
  cbn [Z.eqb Z.ltb Z.compare].
  destruct (Z.ltb_spec (Z.of_nat (List.length addresses)) 0) as [?|_]; [lia|].
  reflexivity.
Qed.

End Effects.

(** X1.  Whenever the batch driver returns, with a batch size of at least
    one and whatever the service answered, the frame has one row per
    address with the addresses in input order under [address], exactly one
    request per address was sent, in input order, and no file was
    written. *)
Theorem returned_frame_has_all_rows
  (network : list request -> request -> outcome Response)
  (api_key : string) (addresses : list string) (batch_size : Z) (w w' : world)
  (df : DataFrame) :
  1 <= batch_size ->
  batch_geocode_addresses network api_key addresses batch_size w = (Ok df, w') ->
  List.length (data df) = List.length addresses
  /\ column_values df "address" = map (fun a => Ok (PStr a)) addresses
  /\ sent w' = (sent w ++ map (search_request api_key) addresses)%list
  /\ files w' = files w.
Proof.
  intros Hb H. rewrite batch_is_sequential in H by exact Hb.
  unfold geocode_each, bind in H.
  destruct (for_each addresses (geocode_one network api_key) [] w) as [[rows|e] w1] eqn:Hrun;
    [|discriminate H].
  cbn in H. injection H as <- <-.
  destruct (for_each_returns network api_key addresses _ _ _ _ Hrun)
    as (new & -> & Hall & Hs & Hf).
  cbn [app]. destruct (frame_of_rows addresses new Hall) as [Hlen Hcol].
  repeat split; assumption.
Qed.

Lemma returned_frame_has_all_rows_witness :
  List.length
    (data (mkDataFrame result_columns
             [[PStr "NULL"; PStr "No match"; PStr "No match"; PStr "No match";
               PStr "No match"];
              [PStr "5401"; PStr "Failed"; PStr "Status Code: 404"; PStr "Failed";
               PStr "Failed"]]))
  = List.length ["NULL"; "5401"]
  /\ column_values
       (mkDataFrame result_columns
          [[PStr "NULL"; PStr "No match"; PStr "No match"; PStr "No match";
            PStr "No match"];
           [PStr "5401"; PStr "Failed"; PStr "Status Code: 404"; PStr "Failed";
            PStr "Failed"]]) "address"
     = map (fun a => Ok (PStr a)) ["NULL"; "5401"]
  /\ sent (mkWorld [search_request "KEY" "NULL"; search_request "KEY" "5401"]
                   [diagnostic "5401" 404] [])
     = (sent empty_world ++ map (search_request "KEY") ["NULL"; "5401"])%list
  /\ files (mkWorld [search_request "KEY" "NULL"; search_request "KEY" "5401"]
                    [diagnostic "5401" 404] [])
     = files empty_world.
Proof.
  apply (returned_frame_has_all_rows odd_network "KEY" ["NULL"; "5401"] 1 empty_world).
  - lia.
  - vm_compute. reflexivity.
Defined.

(** X2.  For every batch size and every service, and whether it returns or
    raises, the batch driver sends only search requests for the addresses
    of a prefix of the input list, one each and in input order, and writes
    no file. *)
Theorem requests_follow_input_order
  (network : list request -> request -> outcome Response)
  (api_key : string) (addresses : list string) (batch_size : Z) (w : world) :
  exists n,
    (n <= List.length addresses)%nat
    /\ sent (snd (batch_geocode_addresses network api_key addresses batch_size w))
       = (sent w ++ map (search_request api_key) (firstn n addresses))%list
    /\ files (snd (batch_geocode_addresses network api_key addresses batch_size w))
       = files w.
Proof.
  destruct (Z.lt_trichotomy batch_size 0) as [Hneg|[->|Hpos]].
  - destruct batch_size as [|p|p]; try lia.
    rewrite batch_size_negative. exists 0%nat. cbn. rewrite app_nil_r.
    repeat split. lia.
  - rewrite batch_size_zero. exists 0%nat. cbn. rewrite app_nil_r.
    repeat split. lia.
  - rewrite batch_is_sequential by lia. unfold geocode_each, bind.
    destruct (for_each_requests network api_key addresses [] w) as (n & Hn & Hs).
    destruct (for_each_effects network api_key addresses [] w) as [_ Hf].
    destruct (for_each addresses (geocode_one network api_key) [] w) as [[rows|e] w1];
      cbn [snd] in *; exists n; repeat split; assumption.
Qed.

(** X3.  A batch size of zero makes the batch driver raise [ValueError]
    at once, and a negative batch size makes it return the frame with no
    rows and no columns; in both cases for every address list, with no
    request sent and nothing printed or written. *)
Theorem non_positive_batch_size
  (network : list request -> request -> outcome Response)
  (api_key : string) (addresses : list string) (p : positive) (w : world) :
  batch_geocode_addresses network api_key addresses 0 w = (Raise ValueError, w)
  /\ batch_geocode_addresses network api_key addresses (Z.neg p) w
     = (Ok (mkDataFrame [] []), w).
Proof.
  split.
  - apply batch_size_zero.
  - apply batch_size_negative.
Qed.

(** ** Errors that stop a run *)

Section Stops.

Variable network : list request -> request -> outcome Response.
Variable api_key : string.

(** When the addresses before [address] get well-formed responses and the
    loop body raises [e] on [address], the loop raises [e] right after the
    request for [address]. *)
Lemma for_each_stops_at (pre post : list string) (address : string) (e : exn) :
  (forall history b,
     In b pre ->
     exists r, network history (search_request api_key b) = Ok r
               /\ well_formed r = true) ->
  (forall rows w, fst (geocode_one network api_key address rows w) = Raise e) ->
  forall (rows : list row) (w : world),
  exists w',
    for_each (pre ++ address :: post) (geocode_one network api_key) rows w = (Raise e, w')
    /\ sent w' = (sent w ++ map (search_request api_key) (pre ++ [address]))%list
    /\ files w' = files w.
Proof.
  intros Hpre Hat rows w. rewrite for_each_app. unfold bind.
  destruct (for_each_well_formed network api_key pre Hpre rows w)
    as (new & w1 & Hrun & _ & Hs & Hf).
  rewrite Hrun. cbn [for_each]. unfold bind.
  specialize (Hat (rows ++ new)%list w1).
  destruct (geocode_one_effects network api_key address (rows ++ new)%list w1) as [Hs1 Hf1].
  destruct (geocode_one network api_key address (rows ++ new)%list w1) as [o w2];
    cbn [fst snd] in *.
  subst o. exists w2. rewrite Hs1, Hs, map_app, app_assoc. cbn [map].
  repeat split. congruence.
Qed.

Lemma batch_stops_at (pre post : list string) (address : string) (e : exn)
  (batch_size : Z) :
  1 <= batch_size ->
  (forall history b,
     In b pre ->
     exists r, network history (search_request api_key b) = Ok r
               /\ well_formed r = true) ->
  (forall rows w, fst (geocode_one network api_key address rows w) = Raise e) ->
  forall w : world,
  exists w',
    batch_geocode_addresses network api_key (pre ++ address :: post) batch_size w
    = (Raise e, w')
    /\ sent w' = (sent w ++ map (search_request api_key) (pre ++ [address]))%list
    /\ files w' = files w.
Proof.
  intros Hb Hpre Hat w. rewrite batch_is_sequential by exact Hb.
  destruct (for_each_stops_at pre post address e Hpre Hat [] w) as (w' & Hrun & Hs & Hf).
  exists w'. unfold geocode_each, bind. rewrite Hrun. repeat split; assumption.
Qed.

End Stops.

(** X4.  A transport failure is not caught: when the addresses before it
    get well-formed responses and [requests.get] raises [e] for an address,
    the batch driver (batch size at least one) raises that same [e] right
    after the request for that address; the addresses after it are never
    requested, no frame is returned and no file is written. *)
Theorem transport_failure_stops_run
  (network : list request -> request -> outcome Response)
  (api_key address : string) (pre post : list string) (e : exn)
  (batch_size : Z) (w : world) :
  1 <= batch_size ->
  (forall history b,
     In b pre ->
     exists r, network history (search_request api_key b) = Ok r
               /\ well_formed r = true) ->
  (forall history, network history (search_request api_key address) = Raise e) ->
  exists w',
    batch_geocode_addresses network api_key (pre ++ address :: post) batch_size w
    = (Raise e, w')
    /\ sent w' = (sent w ++ map (search_request api_key) (pre ++ [address]))%list
    /\ files w' = files w.
Proof.
  intros Hb Hpre Hdown. apply batch_stops_at; try assumption.
  intros rows w1. now rewrite (geocode_one_transport_failure _ _ _ _ _ _ (Hdown (sent w1))).
Qed.

Lemma transport_failure_stops_run_witness :
  exists w',
    batch_geocode_addresses flaky_network "KEY"
      (["1 NOWHERE RD, ATLANTIS XX 00000"] ++ "5401" :: ["5201 C ST, PHILADELPHIA PA 19120-3608"])
      200 empty_world
    = (Raise RequestException, w')
    /\ sent w'
       = (sent empty_world
            ++ map (search_request "KEY") (["1 NOWHERE RD, ATLANTIS XX 00000"] ++ ["5401"]))%list
    /\ files w' = files empty_world.
Proof.
  apply (transport_failure_stops_run flaky_network "KEY" "5401"
           ["1 NOWHERE RD, ATLANTIS XX 00000"] ["5201 C ST, PHILADELPHIA PA 19120-3608"]
           RequestException 200 empty_world).
  - lia.
  - intros history b [<-|[]]. eexists; split; reflexivity.
  - intros history. reflexivity.
Defined.

(** X5.  A 200 response whose body is not JSON is not caught either: when
    [.json()] raises [e] for an address whose predecessors get well-formed
    responses, the batch driver (batch size at least one) raises [e] right
    after the request for that address, with no frame, no file and no
    request for the addresses after it. *)
Theorem undecodable_body_stops_run
  (network : list request -> request -> outcome Response)
  (api_key address : string) (pre post : list string) (e : exn)
  (batch_size : Z) (w : world) :
  1 <= batch_size ->
  (forall history b,
     In b pre ->
     exists r, network history (search_request api_key b) = Ok r
               /\ well_formed r = true) ->
  (forall history,
     exists r, network history (search_request api_key address) = Ok r
               /\ status_code r = 200 /\ json r = Raise e) ->
  exists w',
    batch_geocode_addresses network api_key (pre ++ address :: post) batch_size w
    = (Raise e, w')
    /\ sent w' = (sent w ++ map (search_request api_key) (pre ++ [address]))%list
    /\ files w' = files w.
Proof.
  intros Hb Hpre Hbody. apply batch_stops_at; try assumption.
  intros rows w1. destruct (Hbody (sent w1)) as (r & Hn & Hs & Hj).
  rewrite (geocode_one_response _ _ _ _ _ _ Hn), Hs. cbn [Z.eqb Pos.eqb].
  unfold bind, lift. now rewrite Hj.
Qed.

Lemma undecodable_body_stops_run_witness :
  exists w',
    batch_geocode_addresses html_network "KEY"
      (["1 NOWHERE RD, ATLANTIS XX 00000"] ++ "5401" :: ["5201 C ST, PHILADELPHIA PA 19120-3608"])
      200 empty_world
    = (Raise JSONDecodeError, w')
    /\ sent w'
       = (sent empty_world
            ++ map (search_request "KEY") (["1 NOWHERE RD, ATLANTIS XX 00000"] ++ ["5401"]))%list
    /\ files w' = files empty_world.
Proof.
  apply (undecodable_body_stops_run html_network "KEY" "5401"
           ["1 NOWHERE RD, ATLANTIS XX 00000"] ["5201 C ST, PHILADELPHIA PA 19120-3608"]
           JSONDecodeError 200 empty_world).
  - lia.
  - intros history b [<-|[]]. eexists; split; reflexivity.
  - intros history. exists not_json. repeat split.
Defined.

(** ** The [addresses] field of a 200 body *)

(** X6.  The test on [data['addresses']] is a truth test: a 200 body whose
    [addresses] is any false value ([null], [false], [0], an empty string,
    an empty object, as well as the empty array) gives the ["No match"]
    row. *)
Theorem false_addresses_is_no_match
  (network : list request -> request -> outcome Response)
  (api_key address : string) (rows : list row) (w : world) (r : Response)
  (body found : pyval) :
  network (sent w) (search_request api_key address) = Ok r ->
  status_code r = 200 ->
  json r = Ok body ->
  getitem body "addresses" = Ok found ->
  truthy found = false ->
  geocode_one network api_key address rows w
  = (Ok (rows ++
           [[("address", PStr address);
             ("latitude", PStr "No match");
             ("longitude", PStr "No match");
             ("confidence_score", PStr "No match");
             ("precision_code", PStr "No match")]])%list,
     after_request w (search_request api_key address)).
Proof.
  intros Hn Hs Hj Ha Hf. rewrite (geocode_one_response _ _ _ _ _ _ Hn), Hs.
  cbn [Z.eqb Pos.eqb]. unfold bind, lift. rewrite Hj, Ha, Hf. reflexivity.
Qed.

Lemma false_addresses_is_no_match_witness :
  geocode_one odd_network "KEY" "NULL" [] empty_world
  = (Ok ([] ++
           [[("address", PStr "NULL");
             ("latitude", PStr "No match");
             ("longitude", PStr "No match");
             ("confidence_score", PStr "No match");
             ("precision_code", PStr "No match")]])%list,
     after_request empty_world (search_request "KEY" "NULL")).
Proof.
  apply (false_addresses_is_no_match odd_network "KEY" "NULL" [] empty_world
           null_addresses (PDict [("addresses", PNone)]) PNone);
    reflexivity.
Defined.

(** X7.  A 200 body whose [addresses] is a true value other than an array
    (a number, [true], a non-empty string or object) makes the loop body
    raise after its one request: no row is appended. *)
Theorem true_non_array_addresses_raises
  (network : list request -> request -> outcome Response)
  (api_key address : string) (rows : list row) (w : world) (r : Response)
  (body found : pyval) :
  network (sent w) (search_request api_key address) = Ok r ->
  status_code r = 200 ->
  json r = Ok body ->
  getitem body "addresses" = Ok found ->
  truthy found = true ->
  (forall l, found <> PList l) ->
  exists e,
    geocode_one network api_key address rows w
    = (Raise e, after_request w (search_request api_key address)).
Proof.
  intros Hn Hs Hj Ha Ht Hl. rewrite (geocode_one_response _ _ _ _ _ _ Hn), Hs.
  cbn [Z.eqb Pos.eqb]. unfold bind, lift. rewrite Hj, Ha, Ht.
  destruct found as [|b|n|x|s|l|d]; cbn [getitem0];
    try (eexists; reflexivity); try discriminate Ht.
  - destruct s as [|c s]; [discriminate Ht|]. eexists. reflexivity.
  - exfalso. exact (Hl l eq_refl).
Qed.

Lemma true_non_array_addresses_raises_witness :
  exists e,
    geocode_one odd_network "KEY" "TEXT" [] empty_world
    = (Raise e, after_request empty_world (search_request "KEY" "TEXT")).
Proof.
  apply (true_non_array_addresses_raises odd_network "KEY" "TEXT" [] empty_world
           string_addresses (PDict [("addresses", PStr "none")]) (PStr "none"));
    try reflexivity.
  intros l. discriminate.
Defined.

(** ** The shape of the batches *)

Lemma chunk_length {A : Type} (l : list A) (width k : nat) :
  List.length (py_slice l (0 + Z.of_nat k * Z.of_nat width)
                          (0 + Z.of_nat k * Z.of_nat width + Z.of_nat width))
  = Nat.min width (List.length l - k * width).
Proof.
  replace (0 + Z.of_nat k * Z.of_nat width) with (Z.of_nat (k * width)) by lia.
  now rewrite py_slice_chunk, length_firstn, length_skipn.
Qed.

(** The number of batches, against the length of the list. *)
Lemma batch_count (n width : nat) :
  (1 <= width)%nat ->
  let count := Z.to_nat (range_len 0 (Z.of_nat n) (Z.of_nat width)) in
  Z.of_nat count = (Z.of_nat n + Z.of_nat width - 1) / Z.of_nat width
  /\ (n = 0%nat -> count = 0%nat)
  /\ ((0 < n)%nat -> (1 <= count)%nat /\ ((count - 1) * width < n)%nat).
Proof.
  intros Hw count. subst count. unfold range_len.
  destruct (Z.ltb_spec 0 (Z.of_nat width)) as [_|?]; [|lia].
  destruct (Z.ltb_spec 0 (Z.of_nat n)) as [Hpos|Hzero].
  - rewrite Z.sub_0_r.
    pose proof (Z.div_mod (Z.of_nat n - 1) (Z.of_nat width) ltac:(lia)) as Hdm.
    pose proof (Z.mod_pos_bound (Z.of_nat n - 1) (Z.of_nat width) ltac:(lia)) as Hm.
    pose proof (Z.div_pos (Z.of_nat n - 1) (Z.of_nat width) ltac:(lia) ltac:(lia)) as Hq.
    replace (Z.of_nat n + Z.of_nat width - 1)
      with (Z.of_nat n - 1 + 1 * Z.of_nat width) by lia.
    rewrite Z.div_add by lia. rewrite Z2Nat.id by lia.
    split; [reflexivity|]. split; [lia|]. intros _. split; [lia|].
    apply Nat2Z.inj_lt. rewrite Nat2Z.inj_mul, Nat2Z.inj_sub by lia.
    rewrite Z2Nat.id by lia. nia.
  - assert (n = 0%nat) by lia. subst n. cbn [Z.of_nat Z.to_nat].
    rewrite Z.div_small by lia. split; [reflexivity|]. split; [reflexivity | lia].
Qed.

(** X8.  For a batch size of at least one the list comprehension of
    [batch_geocode_addresses] makes ceil(N / batch_size) batches, none of
    them empty and none longer than [batch_size], and every batch but the
    last has exactly [batch_size] addresses. *)
Theorem batches_are_full_but_last (addresses : list string) (batch_size : Z) :
  1 <= batch_size ->
  exists starts,
    py_range 0 (Z.of_nat (List.length addresses)) batch_size = Ok starts
    /\ let batched_addresses :=
         map (fun i => py_slice addresses i (i + batch_size)) starts in
       Z.of_nat (List.length batched_addresses)
       = (Z.of_nat (List.length addresses) + batch_size - 1) / batch_size
       /\ Forall (fun batch => 1 <= Z.of_nat (List.length batch) <= batch_size)
                 batched_addresses
       /\ forall i,
            (S i < List.length batched_addresses)%nat ->
            Z.of_nat (List.length (nth i batched_addresses [])) = batch_size.
Proof.
  intros Hb.
  assert (Hw : batch_size = Z.of_nat (Z.to_nat batch_size)) by lia.
  revert Hb. rewrite Hw. generalize (Z.to_nat batch_size) as width.
  clear Hw batch_size. intros width Hb. unfold py_range.
  destruct (Z.eqb_spec (Z.of_nat width) 0) as [?|_]; [lia|].
  eexists; split; [reflexivity|]. cbv zeta. rewrite map_map.
  destruct (batch_count (List.length addresses) width ltac:(lia)) as (Hcount & Hzero & Hpos).
  set (count := Z.to_nat (range_len 0 (Z.of_nat (List.length addresses)) (Z.of_nat width)))
    in *.
  rewrite length_map, length_seq. split; [exact Hcount|]. split.
  - apply Forall_forall. intros batch Hin. apply in_map_iff in Hin as (k & <- & Hk).
    apply in_seq in Hk. rewrite chunk_length.
    destruct (List.length addresses) as [|n'] eqn:Hlen; [rewrite Hzero in Hk; lia|].
    destruct (Hpos ltac:(lia)) as [H1 H2]. nia.
  - intros i Hi.
    rewrite (nth_indep _ [] (py_slice addresses (0 + Z.of_nat 0 * Z.of_nat width)
                               (0 + Z.of_nat 0 * Z.of_nat width + Z.of_nat width)))
      by (rewrite length_map, length_seq; lia).
    rewrite (map_nth (fun k => py_slice addresses (0 + Z.of_nat k * Z.of_nat width)
                                 (0 + Z.of_nat k * Z.of_nat width + Z.of_nat width))).
    rewrite seq_nth by lia. cbn [Nat.add]. rewrite chunk_length.
    destruct (List.length addresses) as [|n'] eqn:Hlen; [rewrite Hzero in Hi; lia|].
    destruct (Hpos ltac:(lia)) as [H1 H2]. nia.
Qed.

Lemma batches_are_full_but_last_witness :
  exists starts,
    py_range 0 (Z.of_nat (List.length ["a"; "b"; "c"; "d"; "e"])) 2 = Ok starts
    /\ let batched_addresses :=
         map (fun i => py_slice ["a"; "b"; "c"; "d"; "e"] i (i + 2)) starts in
       Z.of_nat (List.length batched_addresses)
       = (Z.of_nat (List.length ["a"; "b"; "c"; "d"; "e"]) + 2 - 1) / 2
       /\ Forall (fun batch => 1 <= Z.of_nat (List.length batch) <= 2) batched_addresses
       /\ forall i,
            (S i < List.length batched_addresses)%nat ->
            Z.of_nat (List.length (nth i batched_addresses [])) = 2.
Proof.
  apply (batches_are_full_but_last ["a"; "b"; "c"; "d"; "e"] 2). lia.
Defined.

(** ** Diagnostics *)

Lemma for_each_stdout_fixed (server : request -> outcome Response) (api_key : string)
  (addresses : list string) :
  forall (rows : list row) (w : world),
    stdout (snd (for_each addresses (geocode_one (fixed_service server) api_key) rows w))
    = (stdout w
         ++ flat_map (fun a => lines_for a (server (search_request api_key a)))
              (firstn (List.length
                         (sent (snd (for_each addresses
                                       (geocode_one (fixed_service server) api_key) rows w)))
                       - List.length (sent w)) addresses))%list.
Proof.
  induction addresses as [|a addresses IH]; intros rows w.
  - cbn [for_each ret snd]. rewrite firstn_nil. cbn [flat_map]. now rewrite app_nil_r.
  - cbn [for_each]. unfold bind.
    pose proof (geocode_one_stdout (fixed_service server) api_key a rows w) as Hout.
    destruct (geocode_one_effects (fixed_service server) api_key a rows w) as [Hs _].
    unfold fixed_service at 2 in Hout.
    destruct (geocode_one (fixed_service server) api_key a rows w) as [[rows1|e] w1];
      cbn [snd] in *.
    + rewrite IH.
      destruct (for_each_requests (fixed_service server) api_key addresses rows1 w1)
        as (n & _ & Hn).
      rewrite Hn, Hs, !length_app, length_map. cbn [List.length].
      replace (List.length (sent w) + 1 + List.length (firstn n addresses)
               - List.length (sent w))%nat
        with (S (List.length (firstn n addresses))) by lia.
      replace (List.length (sent w) + 1 + List.length (firstn n addresses)
               - (List.length (sent w) + 1))%nat
        with (List.length (firstn n addresses)) by lia.
      cbn [firstn flat_map]. rewrite Hout, <- app_assoc. reflexivity.
    + rewrite Hs, length_app. cbn [List.length].
      replace (List.length (sent w) + 1 - List.length (sent w))%nat with 1%nat by lia.
      cbn [firstn flat_map]. rewrite app_nil_r. exact Hout.
Qed.

(** X9.  Against a service that answers by the request alone, the lines
    the batch driver prints (batch size at least one) are the diagnostics
    of the requested addresses whose status is not 200, one line each, in
    input order, and nothing else; when the driver returns, that is one
    line for each such address of the whole list. *)
Theorem diagnostics_follow_failures (server : request -> outcome Response)
  (api_key : string) (addresses : list string) (batch_size : Z) (w : world) :
  1 <= batch_size ->
  let run := batch_geocode_addresses (fixed_service server) api_key addresses batch_size w in
  let line_of := fun a => lines_for a (server (search_request api_key a)) in
  stdout (snd run)
  = (stdout w
       ++ flat_map line_of
            (firstn (List.length (sent (snd run)) - List.length (sent w)) addresses))%list
  /\ forall df, fst run = Ok df ->
                stdout (snd run) = (stdout w ++ flat_map line_of addresses)%list.
Proof.
  intros Hb run line_of. subst run.
  rewrite batch_is_sequential by exact Hb. unfold geocode_each, bind.
  pose proof (for_each_stdout_fixed server api_key addresses [] w) as Hout.
  destruct (for_each addresses (geocode_one (fixed_service server) api_key) [] w)
    as [[rows|e] w1] eqn:Hrun; cbn [fst snd ret] in *.
  - split; [exact Hout|]. intros _ _. rewrite Hout.
    destruct (for_each_returns _ _ _ _ _ _ _ Hrun) as (_ & _ & _ & Hs & _).
    rewrite Hs, length_app, length_map.
    replace (List.length (sent w) + List.length addresses - List.length (sent w))%nat
      with (List.length addresses) by lia.
    now rewrite firstn_all.
  - split; [exact Hout|]. intros df H. discriminate H.
Qed.

Lemma diagnostics_follow_failures_witness :
  let run :=
    batch_geocode_addresses (fixed_service (sample_network [])) "KEY"
      ["5401"; "1 NOWHERE RD, ATLANTIS XX 00000"; "5402"] 2 empty_world in
  let line_of := fun a => lines_for a (sample_network [] (search_request "KEY" a)) in
  stdout (snd run)
  = (stdout empty_world
       ++ flat_map line_of
            (firstn (List.length (sent (snd run)) - List.length (sent empty_world))
                    ["5401"; "1 NOWHERE RD, ATLANTIS XX 00000"; "5402"]))%list
  /\ forall df, fst run = Ok df ->
                stdout (snd run)
                = (stdout empty_world
                     ++ flat_map line_of
                          ["5401"; "1 NOWHERE RD, ATLANTIS XX 00000"; "5402"])%list.
Proof.
  apply (diagnostics_follow_failures (sample_network []) "KEY"
           ["5401"; "1 NOWHERE RD, ATLANTIS XX 00000"; "5402"] 2 empty_world).
  lia.
Defined.

(** ** The reader *)

Lemma series_get_missing (labels : list string) (label : string) :
  ~ In label labels ->
  forall cells, series_get labels cells label = Raise (KeyError (PStr label)).
Proof.
  induction labels as [|l labels IH]; intros Hnot cells; [reflexivity|].
  destruct cells as [|c cells]; [reflexivity|]. cbn [series_get].
  destruct (String.eqb_spec label l) as [->|_].
  - exfalso. apply Hnot. now left.
  - apply IH. intros Hin. apply Hnot. now right.
Qed.

Lemma series_get_raises (labels : list string) (label : string) (e : exn) :
  forall cells, series_get labels cells label = Raise e -> e = KeyError (PStr label).
Proof.
  induction labels as [|l labels IH]; intros cells H.
  - cbn in H. now injection H as <-.
  - destruct cells as [|c cells]; [cbn in H; now injection H as <-|].
    cbn [series_get] in H. destruct (String.eqb label l); [discriminate H|].
    now apply IH in H.
Qed.

(** The reader looks at the files only, and changes nothing. *)
Lemma read_addresses_world (repr_other : pyval -> string) (file_path : string)
  (w w0 : world) :
  files w = files w0 ->
  read_addresses_from_csv repr_other file_path w
  = (fst (read_addresses_from_csv repr_other file_path w0), w).
Proof.
  intros Hf. unfold read_addresses_from_csv, read_csv, bind, lift, ret. rewrite Hf.
  destruct (find_file (files w0) file_path) as [f|]; [|reflexivity].
  destruct (header f) as [|l labels], (records f) as [|r rows]; try reflexivity;
    cbn [columns data];
    match goal with
    | |- context [apply_rows ?g ?ls ?rs] => destruct (apply_rows g ls rs); reflexivity
    end.
Qed.

(** X10.  When the input table has at least one row and lacks one of the
    columns [Address], [City], [State], [Zip Code], the reader raises
    [KeyError] for a required column, and changes nothing. *)
Theorem missing_column_is_key_error (repr_other : pyval -> string)
  (file_path : string) (w : world) (f : csv_file) (first : list pyval)
  (others : list (list pyval)) (label : string) :
  find_file (files w) file_path = Some f ->
  records f = first :: others ->
  In label required_columns ->
  ~ In label (header f) ->
  exists missing,
    In missing required_columns
    /\ read_addresses_from_csv repr_other file_path w
       = (Raise (KeyError (PStr missing)), w).
Proof.
  intros Hfind Hrec Hreq Hnot.
  pose proof (series_get_missing (header f) label Hnot first) as Hmiss.
  assert (Hsome : records f <> []) by (rewrite Hrec; discriminate).
  unfold read_addresses_from_csv, bind, lift, ret.
  rewrite (read_csv_table file_path w f Hfind (or_intror Hsome)).
  cbn [columns data]. rewrite Hrec. cbn [apply_rows].
  assert (Hrow : exists row rows, frame_values (first :: others) = row :: rows).
  { pose proof (frame_values_length (first :: others)) as Hlen.
    destruct (frame_values (first :: others)) as [|row rows]; [discriminate Hlen|].
    now exists row, rows. }
  destruct Hrow as (row & rows & ->). clear Hmiss.
  pose proof (series_get_missing (header f) label Hnot row) as Hmiss.
  cbn [each_row]. unfold format_address, and_then.
  revert Hmiss. generalize row as first'. clear first Hrec. intros first Hmiss.
  destruct (series_get (header f) first "Address") as [x1|e1] eqn:H1.
  2: { apply series_get_raises in H1 as ->. exists "Address". split; [cbn; tauto | reflexivity]. }
  destruct (series_get (header f) first "City") as [x2|e2] eqn:H2.
  2: { apply series_get_raises in H2 as ->. exists "City". split; [cbn; tauto | reflexivity]. }
  destruct (series_get (header f) first "State") as [x3|e3] eqn:H3.
  2: { apply series_get_raises in H3 as ->. exists "State". split; [cbn; tauto | reflexivity]. }
  destruct (series_get (header f) first "Zip Code") as [x4|e4] eqn:H4.
  2: { apply series_get_raises in H4 as ->. exists "Zip Code".
       split; [cbn; tauto | reflexivity]. }
  exfalso. destruct Hreq as [<-|[<-|[<-|[<-|[]]]]]; congruence.
Qed.

Lemma missing_column_is_key_error_witness :
  exists missing,
    In missing required_columns
    /\ read_addresses_from_csv sample_repr "input.csv" no_city_world
       = (Raise (KeyError (PStr missing)), no_city_world).
Proof.
  apply (missing_column_is_key_error sample_repr "input.csv" no_city_world no_city_input
           [PStr "5201 C ST"; PStr "PA"; PStr "19120-3608"] [] "City").
  - reflexivity.
  - reflexivity.
  - cbn. tauto.
  - cbn. intros [H|[H|[H|[]]]]; discriminate H.
Defined.

(** ** The notebook as a whole *)

Lemma bind_returns {A B : Type} (m : M A) (k : A -> M B) (w w' : world) (a : A) :
  m w = (Ok a, w') -> (x <- m ;; k x) w = k a w'.
Proof. intros H. unfold bind. now rewrite H. Qed.

Lemma bind_raises {A B : Type} (m : M A) (k : A -> M B) (w w' : world) (e : exn) :
  m w = (Raise e, w') -> (x <- m ;; k x) w = (Raise e, w').
Proof. intros H. unfold bind. now rewrite H. Qed.

Section Pipeline.

Variable network : list request -> request -> outcome Response.
Variable api_key : string.

Lemma lines_for_diagnostic (address : string) (answer : outcome Response) :
  Forall (fun line => exists a status, line = diagnostic a status)
         (lines_for address answer).
Proof.
  destruct answer as [r|e]; cbn; [|constructor].
  destruct (status_code r =? 200); repeat constructor. now exists address, (status_code r).
Qed.

(** Whatever a loop prints is diagnostics. *)
Lemma for_each_stdout_lines (addresses : list string) :
  forall (rows : list row) (w : world),
  exists lines,
    stdout (snd (for_each addresses (geocode_one network api_key) rows w))
    = (stdout w ++ lines)%list
    /\ Forall (fun line => exists a status, line = diagnostic a status) lines.
Proof.
  induction addresses as [|a addresses IH]; intros rows w.
  - exists []. cbn. rewrite app_nil_r. split; [reflexivity | constructor].
  - cbn [for_each]. unfold bind.
    pose proof (geocode_one_stdout network api_key a rows w) as Hout.
    destruct (geocode_one network api_key a rows w) as [[rows1|e] w1]; cbn [snd] in *.
    + destruct (IH rows1 w1) as (lines & Hl & Hd).
      eexists. rewrite Hl, Hout, <- app_assoc. split; [reflexivity|].
      apply Forall_app. split; [apply lines_for_diagnostic | exact Hd].
    + eexists. split; [exact Hout | apply lines_for_diagnostic].
Qed.

(** The batch driver on well-formed responses, with all it does. *)
Lemma batch_well_formed_run (addresses : list string) (batch_size : Z) (w : world) :
  1 <= batch_size ->
  (forall history address,
     In address addresses ->
     exists r, network history (search_request api_key address) = Ok r
               /\ well_formed r = true) ->
  exists rows w' lines,
    batch_geocode_addresses network api_key addresses batch_size w
    = (Ok (pd_DataFrame rows), w')
    /\ Forall2 row_for addresses rows
    /\ sent w' = (sent w ++ map (search_request api_key) addresses)%list
    /\ files w' = files w
    /\ stdout w' = (stdout w ++ lines)%list
    /\ Forall (fun line => exists a status, line = diagnostic a status) lines.
Proof.
  intros Hb Hnet. rewrite batch_is_sequential by exact Hb.
  destruct (for_each_well_formed network api_key addresses Hnet [] w)
    as (rows & w' & Hrun & Hall & Hs & Hf).
  destruct (for_each_stdout_lines addresses [] w) as (lines & Hl & Hd).
  rewrite Hrun in Hl. cbn [snd app] in *.
  exists rows, w', lines. unfold geocode_each, bind. rewrite Hrun.
  repeat split; assumption.
Qed.

End Pipeline.

(** X11.  When the input table has the four columns and every formatted
    address gets a well-formed response, the notebook run returns: it sends
    one search request per input row, for the formatted addresses in row
    order, and writes under the output path a table with one record per
    input row whose [address] column is the formatted addresses in row
    order; it prints the two opening lines, then diagnostics only, then the
    two closing lines.  The fields of a row are its values as [df.apply]
    hands them to the lambda. *)
Theorem notebook_writes_one_record_per_row
  (network : list request -> request -> outcome Response)
  (repr_other : pyval -> string)
  (lightbox_api_key input_file_path output_file_path : string) (w : world)
  (f : csv_file) (recs : list AddressRecord) :
  find_file (files w) input_file_path = Some f ->
  (forall label, In label required_columns -> In label (header f)) ->
  Forall2 (row_holds (header f)) (frame_values (records f)) recs ->
  (forall history address,
     In address (map (FormattedAddress repr_other) recs) ->
     exists r, network history (search_request lightbox_api_key address) = Ok r
               /\ well_formed r = true) ->
  exists df w' lines,
    run_notebook network repr_other lightbox_api_key input_file_path output_file_path w
    = (Ok tt, w')
    /\ files w' = (output_file_path, mkCsv (columns df) (data df)) :: files w
    /\ List.length (data df) = List.length (records f)
    /\ column_values df "address"
       = map (fun a => Ok (PStr a)) (map (FormattedAddress repr_other) recs)
    /\ sent w'
       = (sent w ++ map (search_request lightbox_api_key)
                        (map (FormattedAddress repr_other) recs))%list
    /\ stdout w'
       = (stdout w
            ++ ["Reading addresses from CSV file..."; "Starting batch geocoding..."]
            ++ lines
            ++ ["Batch geocoding completed.";
                ("Geocoded data saved to '" ++ output_file_path ++ "'.")%string])%list
    /\ Forall (fun line => exists a status, line = diagnostic a status) lines.
Proof.
  intros Hfind Hreq Hrows Hnet.
  assert (Hhead : header f <> []).
  { intros Hnil. specialize (Hreq "Address" ltac:(cbn; tauto)).
    rewrite Hnil in Hreq. contradiction. }
  set (addresses := map (FormattedAddress repr_other) recs) in *.
  set (w1 := after_print w "Reading addresses from CSV file...").
  set (w2 := after_print w1 "Starting batch geocoding...").
  destruct (batch_well_formed_run network lightbox_api_key addresses default_batch_size w2
              ltac:(discriminate) Hnet)
    as (rows & w3 & lines & Hrun & Hall & Hs & Hf & Hl & Hd).
  destruct (frame_of_rows addresses rows Hall) as [Hlen Hcol].
  assert (Hread : read_addresses_from_csv repr_other input_file_path w1 = (Ok addresses, w1)).
  { unfold read_addresses_from_csv, bind, lift, ret.
    rewrite (read_csv_table input_file_path w1 f Hfind (or_introl Hhead)).
    cbn [columns data].
    now rewrite (apply_rows_format repr_other _ _ _ Hreq Hrows). }
  exists (pd_DataFrame rows). eexists. exists lines.
  split.
  - unfold run_notebook.
    rewrite (bind_returns (print "Reading addresses from CSV file...") _ w w1 tt eq_refl).
    rewrite (bind_returns _ _ w1 w1 addresses Hread).
    rewrite (bind_returns (print "Starting batch geocoding...") _ w1 w2 tt eq_refl).
    rewrite (bind_returns _ _ w2 w3 (pd_DataFrame rows) Hrun).
    rewrite (bind_returns (print "Batch geocoding completed.") _ w3 _ tt eq_refl).
    rewrite (bind_returns (to_csv (pd_DataFrame rows) output_file_path) _ _ _ tt eq_refl).
    reflexivity.
  - cbn [files sent stdout after_print]. rewrite Hf, Hs, Hl.
    cbn [w2 w1 after_print files sent stdout].
    repeat split; try assumption.
    + rewrite Hlen. unfold addresses.
      rewrite length_map, <- (frame_values_length (records f)).
      symmetry. exact (Forall2_length Hrows).
    + rewrite <- !app_assoc. reflexivity.
Qed.

Lemma notebook_writes_one_record_per_row_witness :
  exists df w' lines,
    run_notebook sample_network sample_repr "KEY" "input.csv" "output.csv" good_world
    = (Ok tt, w')
    /\ files w' = ("output.csv", mkCsv (columns df) (data df)) :: files good_world
    /\ List.length (data df) = List.length (records good_input)
    /\ column_values df "address"
       = map (fun a => Ok (PStr a))
             (map (FormattedAddress sample_repr)
                [mkAddressRecord (PStr "5201 C ST") (PStr "PHILADELPHIA") (PStr "PA")
                                 (PStr "19120-3608");
                 mkAddressRecord (PStr " 12 Main St ") (PStr "Boston") (PStr "MA")
                                 (PStr "02134")])
    /\ sent w'
       = (sent good_world
            ++ map (search_request "KEY")
                 (map (FormattedAddress sample_repr)
                    [mkAddressRecord (PStr "5201 C ST") (PStr "PHILADELPHIA") (PStr "PA")
                                     (PStr "19120-3608");
                     mkAddressRecord (PStr " 12 Main St ") (PStr "Boston") (PStr "MA")
                                     (PStr "02134")]))%list
    /\ stdout w'
       = (stdout good_world
            ++ ["Reading addresses from CSV file..."; "Starting batch geocoding..."]
            ++ lines
            ++ ["Batch geocoding completed.";
                ("Geocoded data saved to '" ++ "output.csv" ++ "'.")%string])%list
    /\ Forall (fun line => exists a status, line = diagnostic a status) lines.
Proof.
  apply (notebook_writes_one_record_per_row sample_network sample_repr "KEY"
           "input.csv" "output.csv" good_world good_input).
  - reflexivity.
  - cbn. tauto.
  - repeat constructor.
  - intros history address [<-|[<-|[]]]; eexists; split; reflexivity.
Defined.

(** X12.  When the reader raises (no such input file, a missing column),
    the notebook run raises the same error after its first line: it sends
    no request and writes no file. *)
Theorem unreadable_input_sends_nothing
  (network : list request -> request -> outcome Response)
  (repr_other : pyval -> string)
  (lightbox_api_key input_file_path output_file_path : string) (w : world) (e : exn) :
  fst (read_addresses_from_csv repr_other input_file_path w) = Raise e ->
  run_notebook network repr_other lightbox_api_key input_file_path output_file_path w
  = (Raise e, mkWorld (sent w) (stdout w ++ ["Reading addresses from CSV file..."])
                      (files w)).
Proof.
  intros Hread. unfold run_notebook.
  rewrite (bind_returns (print "Reading addresses from CSV file...") _ w
             (after_print w "Reading addresses from CSV file...") tt eq_refl).
  apply bind_raises.
  rewrite (read_addresses_world repr_other input_file_path
             (after_print w "Reading addresses from CSV file...") w eq_refl).
  now rewrite Hread.
Qed.

Lemma unreadable_input_sends_nothing_witness :
  run_notebook sample_network sample_repr "KEY" "input.csv" "output.csv" empty_world
  = (Raise (FileNotFoundError "input.csv"),
     mkWorld (sent empty_world)
             (stdout empty_world ++ ["Reading addresses from CSV file..."])
             (files empty_world)).
Proof.
  apply (unreadable_input_sends_nothing sample_network sample_repr "KEY" "input.csv"
           "output.csv" empty_world (FileNotFoundError "input.csv")).
  reflexivity.
Defined.

(** ** The autocomplete cell *)

Section Autocomplete.

Variable network : list request -> request -> outcome Response.
Variable repr_other : pyval -> string.

(** The loop of the cell on candidates that all have a label. *)
Lemma labels_printed (candidates labels : list pyval) :
  Forall2 (fun c v => getitem c "label" = Ok v) candidates labels ->
  forall w : world,
    for_each candidates
      (fun address _ =>
         label <- lift (getitem address "label") ;;
         print (format_value repr_other label)) tt w
    = (Ok tt, mkWorld (sent w) (stdout w ++ map (format_value repr_other) labels) (files w)).
Proof.
  induction 1 as [|c v candidates labels Hc _ IH]; intros w.
  - cbn. rewrite app_nil_r. now destruct w.
  - cbn [for_each]. unfold bind at 1 2, lift. rewrite Hc. cbn [print].
    rewrite IH. cbn [sent stdout files map]. now rewrite <- app_assoc.
Qed.

(** The same loop stops at the first candidate whose label cannot be
    read; the labels before it are printed. *)
Lemma labels_printed_until (good labels rest : list pyval) (bad : pyval) (e : exn) :
  Forall2 (fun c v => getitem c "label" = Ok v) good labels ->
  getitem bad "label" = Raise e ->
  forall w : world,
    for_each (good ++ bad :: rest)
      (fun address _ =>
         label <- lift (getitem address "label") ;;
         print (format_value repr_other label)) tt w
    = (Raise e,
       mkWorld (sent w) (stdout w ++ map (format_value repr_other) labels) (files w)).
Proof.
  intros Hgood Hbad w. rewrite for_each_app. unfold bind at 1.
  rewrite (labels_printed good labels Hgood w).
  cbn [for_each]. unfold bind, lift. now rewrite Hbad.
Qed.

End Autocomplete.

(** X13.  The autocomplete cell sends one autocomplete request, prints the
    status line and then the label of every candidate of the body's
    [addresses] array, in the order of the array; it does so whatever the
    status code is, which it prints but does not test. *)
Theorem autocomplete_cell_prints_labels
  (network : list request -> request -> outcome Response)
  (repr_other : pyval -> string)
  (lightbox_api_key address country_code : string) (w : world) (r : Response)
  (body : pyval) (candidates labels : list pyval) :
  network (sent w) (autocomplete_request lightbox_api_key address country_code) = Ok r ->
  json r = Ok body ->
  getitem body "addresses" = Ok (PList candidates) ->
  Forall2 (fun c v => getitem c "label" = Ok v) candidates labels ->
  autocomplete_cell network repr_other lightbox_api_key address country_code w
  = (Ok tt,
     mkWorld (sent w ++ [autocomplete_request lightbox_api_key address country_code])
             (stdout w ++ status_line (status_code r)
                            :: map (format_value repr_other) labels)
             (files w)).
Proof.
  intros Hn Hj Ha Hl. unfold autocomplete_cell.
  rewrite (bind_returns _ _ w _ r (eq_trans (autocomplete_address_run _ _ _ _ _)
                                     (f_equal2 pair Hn eq_refl))).
  rewrite (bind_returns (print _) _ _ _ tt eq_refl).
  unfold bind at 1 2 3, lift. rewrite Hj, Ha. cbn [py_iter].
  rewrite (labels_printed repr_other candidates labels Hl).
  cbn [sent stdout files after_request]. fold (status_line (status_code r)).
  now rewrite <- app_assoc.
Qed.

Lemma autocomplete_cell_prints_labels_witness :
  autocomplete_cell autocomplete_network sample_repr "KEY" "5201 C" "US" empty_world
  = (Ok tt,
     mkWorld (sent empty_world ++ [autocomplete_request "KEY" "5201 C" "US"])
             (stdout empty_world
                ++ status_line (status_code two_labels)
                     :: map (format_value sample_repr)
                          [PStr "5201 AVENUE C, CORPUS CHRISTI, TX 78410-4720, US";
                           PStr "5201 C ST, PHILADELPHIA, PA 19120-3608, US"])
             (files empty_world)).
Proof.
  apply (autocomplete_cell_prints_labels autocomplete_network sample_repr "KEY" "5201 C"
           "US" empty_world two_labels
           (PDict [("addresses",
                    PList [PDict [("label", PStr "5201 AVENUE C, CORPUS CHRISTI, TX 78410-4720, US")];
                           PDict [("label", PStr "5201 C ST, PHILADELPHIA, PA 19120-3608, US")]])])
           [PDict [("label", PStr "5201 AVENUE C, CORPUS CHRISTI, TX 78410-4720, US")];
            PDict [("label", PStr "5201 C ST, PHILADELPHIA, PA 19120-3608, US")]]).
  - reflexivity.
  - reflexivity.
  - reflexivity.
  - repeat constructor.
Defined.

(** X14.  When a candidate of the array has no readable [label], the
    autocomplete cell raises at that candidate: the status line and the
    labels of the candidates before it stay printed, the candidates after
    it are not printed. *)
Theorem autocomplete_cell_stops_at_unlabelled
  (network : list request -> request -> outcome Response)
  (repr_other : pyval -> string)
  (lightbox_api_key address country_code : string) (w : world) (r : Response)
  (body bad : pyval) (good labels rest : list pyval) (e : exn) :
  network (sent w) (autocomplete_request lightbox_api_key address country_code) = Ok r ->
  json r = Ok body ->
  getitem body "addresses" = Ok (PList (good ++ bad :: rest)) ->
  Forall2 (fun c v => getitem c "label" = Ok v) good labels ->
  getitem bad "label" = Raise e ->
  autocomplete_cell network repr_other lightbox_api_key address country_code w
  = (Raise e,
     mkWorld (sent w ++ [autocomplete_request lightbox_api_key address country_code])
             (stdout w ++ status_line (status_code r)
                            :: map (format_value repr_other) labels)
             (files w)).
Proof.
  intros Hn Hj Ha Hl Hbad. unfold autocomplete_cell.
  rewrite (bind_returns _ _ w _ r (eq_trans (autocomplete_address_run _ _ _ _ _)
                                     (f_equal2 pair Hn eq_refl))).
  rewrite (bind_returns (print _) _ _ _ tt eq_refl).
  unfold bind at 1 2 3, lift. rewrite Hj, Ha. cbn [py_iter].
  rewrite (labels_printed_until repr_other good labels rest bad e Hl Hbad).
  cbn [sent stdout files after_request]. fold (status_line (status_code r)).
  now rewrite <- app_assoc.
Qed.

Lemma autocomplete_cell_stops_at_unlabelled_witness :
  autocomplete_cell autocomplete_network sample_repr "KEY" "5201 X" "US" empty_world
  = (Raise (KeyError (PStr "label")),
     mkWorld (sent empty_world ++ [autocomplete_request "KEY" "5201 X" "US"])
             (stdout empty_world
                ++ status_line (status_code unlabelled_second)
                     :: map (format_value sample_repr)
                          [PStr "5201 AVENUE C, CORPUS CHRISTI, TX 78410-4720, US"])
             (files empty_world)).
Proof.
  apply (autocomplete_cell_stops_at_unlabelled autocomplete_network sample_repr "KEY"
           "5201 X" "US" empty_world unlabelled_second
           (PDict [("addresses",
                    PList [PDict [("label", PStr "5201 AVENUE C, CORPUS CHRISTI, TX 78410-4720, US")];
                           PDict [("id", PStr "0001")];
                           PDict [("label", PStr "5201 C ST, PHILADELPHIA, PA 19120-3608, US")]])])
           (PDict [("id", PStr "0001")])
           [PDict [("label", PStr "5201 AVENUE C, CORPUS CHRISTI, TX 78410-4720, US")]]
           [PStr "5201 AVENUE C, CORPUS CHRISTI, TX 78410-4720, US"]
           [PDict [("label", PStr "5201 C ST, PHILADELPHIA, PA 19120-3608, US")]]).
  - reflexivity.
  - reflexivity.
  - reflexivity.
  - repeat constructor.
  - reflexivity.
Defined.

(** X15.  On a body that is a JSON object without an [addresses] key, as
    the error body of a 404 is, the autocomplete cell prints the status
    line and then raises [KeyError] for [addresses], after its one
    request. *)
Theorem autocomplete_cell_without_addresses
  (network : list request -> request -> outcome Response)
  (repr_other : pyval -> string)
  (lightbox_api_key address country_code : string) (w : world) (r : Response)
  (d : list (string * pyval)) :
  network (sent w) (autocomplete_request lightbox_api_key address country_code) = Ok r ->
  json r = Ok (PDict d) ->
  dict_lookup d "addresses" = None ->
  autocomplete_cell network repr_other lightbox_api_key address country_code w
  = (Raise (KeyError (PStr "addresses")),
     mkWorld (sent w ++ [autocomplete_request lightbox_api_key address country_code])
             (stdout w ++ [status_line (status_code r)])
             (files w)).
Proof.
  intros Hn Hj Hd. unfold autocomplete_cell.
  rewrite (bind_returns _ _ w _ r (eq_trans (autocomplete_address_run _ _ _ _ _)
                                     (f_equal2 pair Hn eq_refl))).
  rewrite (bind_returns (print _) _ _ _ tt eq_refl).
  unfold bind, lift. rewrite Hj. cbn [getitem]. rewrite Hd. reflexivity.
Qed.

Lemma autocomplete_cell_without_addresses_witness :
  autocomplete_cell autocomplete_network sample_repr "KEY" "5401" "US" empty_world
  = (Raise (KeyError (PStr "addresses")),
     mkWorld (sent empty_world ++ [autocomplete_request "KEY" "5401" "US"])
             (stdout empty_world ++ [status_line (status_code not_found)])
             (files empty_world)).
Proof.
  apply (autocomplete_cell_without_addresses autocomplete_network sample_repr "KEY" "5401"
           "US" empty_world not_found
           [("error", PDict [("code", PStr "404"); ("message", PStr "Not Found")])]);
    reflexivity.
Defined.

(** ** The header of the result *)

(** X16.  Whenever the batch driver returns on a non-empty address list
    (batch size at least one), the columns of the frame are [address],
    [latitude], [longitude], [confidence_score], [precision_code] in that
    order, whichever branches the rows came from, and every row has five
    cells. *)
Theorem returned_frame_columns
  (network : list request -> request -> outcome Response)
  (api_key : string) (addresses : list string) (batch_size : Z) (w w' : world)
  (df : DataFrame) :
  1 <= batch_size ->
  addresses <> [] ->
  batch_geocode_addresses network api_key addresses batch_size w = (Ok df, w') ->
  columns df = ["address"; "latitude"; "longitude"; "confidence_score"; "precision_code"]
  /\ Forall (fun cells => List.length cells = 5%nat) (data df).
Proof.
  intros Hb Hne H. rewrite batch_is_sequential in H by exact Hb.
  unfold geocode_each, bind in H.
  destruct (for_each addresses (geocode_one network api_key) [] w) as [[rows|e] w1] eqn:Hrun;
    [|discriminate H].
  cbn in H. injection H as <- <-.
  destruct (for_each_returns network api_key addresses _ _ _ _ Hrun)
    as (new & -> & Hall & _ & _).
  cbn [app]. unfold pd_DataFrame. cbn [columns data].
  assert (Hnew : new <> []).
  { intros ->. inversion Hall. subst. now apply Hne. }
  rewrite (frame_columns_rows addresses new Hall Hnew). split; [reflexivity|].
  apply Forall_forall. intros cells Hin. apply in_map_iff in Hin as (r & <- & _).
  reflexivity.
Qed.

Lemma returned_frame_columns_witness :
  columns (mkDataFrame result_columns
             [[PStr "NULL"; PStr "No match"; PStr "No match"; PStr "No match";
               PStr "No match"];
              [PStr "5401"; PStr "Failed"; PStr "Status Code: 404"; PStr "Failed";
               PStr "Failed"]])
  = ["address"; "latitude"; "longitude"; "confidence_score"; "precision_code"]
  /\ Forall (fun cells => List.length cells = 5%nat)
       (data (mkDataFrame result_columns
                [[PStr "NULL"; PStr "No match"; PStr "No match"; PStr "No match";
                  PStr "No match"];
                 [PStr "5401"; PStr "Failed"; PStr "Status Code: 404"; PStr "Failed";
                  PStr "Failed"]])).
Proof.
  apply (returned_frame_columns odd_network "KEY" ["NULL"; "5401"] 1 empty_world
           (mkWorld [search_request "KEY" "NULL"; search_request "KEY" "5401"]
                    [diagnostic "5401" 404] [])).
  - lia.
  - discriminate.
  - vm_compute. reflexivity.
Defined.

(** ** The reader on a table without rows *)

(** The lambda raises when a column it reads is missing. *)
Lemma format_address_missing (repr_other : pyval -> string) (labels : list string)
  (cells : list pyval) (label : string) :
  In label required_columns ->
  ~ In label labels ->
  exists e, format_address repr_other (series_get labels cells) = Raise e.
Proof.
  intros Hreq Hnot.
  pose proof (series_get_missing labels label Hnot cells) as Hmiss.
  unfold format_address, and_then.
  destruct (series_get labels cells "Address") as [x1|e1] eqn:H1; [|now exists e1].
  destruct (series_get labels cells "City") as [x2|e2] eqn:H2; [|now exists e2].
  destruct (series_get labels cells "State") as [x3|e3] eqn:H3; [|now exists e3].
  destruct (series_get labels cells "Zip Code") as [x4|e4] eqn:H4; [|now exists e4].
  exfalso. destruct Hreq as [<-|[<-|[<-|[<-|[]]]]]; congruence.
Qed.

(** X17.  On a table with a header line and no row that lacks one of the
    columns [Address], [City], [State], [Zip Code], the reader raises
    [AttributeError], not [KeyError]: [df.apply] gives back a frame, which
    has no [tolist].  Nothing else happens. *)
Theorem missing_column_without_rows (repr_other : pyval -> string)
  (file_path : string) (w : world) (f : csv_file) (label : string) :
  find_file (files w) file_path = Some f ->
  header f <> [] ->
  records f = [] ->
  In label required_columns ->
  ~ In label (header f) ->
  read_addresses_from_csv repr_other file_path w = (Raise AttributeError, w).
Proof.
  intros Hfind Hhead Hrec Hreq Hnot.
  unfold read_addresses_from_csv, bind, lift, ret.
  rewrite (read_csv_table file_path w f Hfind (or_introl Hhead)).
  cbn [columns data]. rewrite Hrec. cbn [apply_rows].
  destruct (format_address_missing repr_other (header f)
              (map (fun _ => PFloat S754_nan) (header f)) label Hreq Hnot) as [e ->].
  reflexivity.
Qed.

Lemma missing_column_without_rows_witness :
  read_addresses_from_csv sample_repr "input.csv" header_only_world
  = (Raise AttributeError, header_only_world).
Proof.
  apply (missing_column_without_rows sample_repr "input.csv" header_only_world
           header_only_input "City").
  - reflexivity.
  - discriminate.
  - reflexivity.
  - cbn. tauto.
  - cbn. intros [H|[H|[H|[]]]]; discriminate H.
Defined.

(** In a table of numbers with a column of floats, the integers reach the
    lambda as floats: 5201 as 5201.0. *)
Example numbers_become_floats :
  frame_values [[PInt 5201; PInt 7; PInt 3; PFloat (S754_finite false 5 (-1))]]
  = [[PFloat (S754_finite false 5718559976062976 (-40));
      PFloat (S754_finite false 7881299347898368 (-50));
      PFloat (S754_finite false 6755399441055744 (-51));
      PFloat (S754_finite false 5 (-1))]].
Proof. reflexivity. Qed.

(** Beside a column of strings the numbers stay as they are. *)
Example numbers_beside_text :
  frame_values [[PStr "5201 C ST"; PInt 7; PInt 3; PFloat (S754_finite false 5 (-1))]]
  = [[PStr "5201 C ST"; PInt 7; PInt 3; PFloat (S754_finite false 5 (-1))]].
Proof. reflexivity. Qed.

(** The file an empty run writes has nothing to parse. *)
Example read_empty_output :
  read_csv "output.csv" (mkWorld [] [] [("output.csv", mkCsv [] [])])
  = (Raise EmptyDataError, mkWorld [] [] [("output.csv", mkCsv [] [])]).
Proof. reflexivity. Qed.
